(** * The SO101 web-simulator follower and its reference simulator endpoint

    A shallow embedding of
    - [so101_websim_follower.py] (class [SO101WebSimFollower]: [__init__],
      [action_features], [observation_features], [connect], [disconnect],
      [get_observation], [send_action] and the asyncio helpers [_run],
      [_async_connect], [_async_disconnect], [_async_send],
      [_async_try_recv]),
    - [config_so101_websim_follower.py] (the configuration record),
    - [sim_ws_server_example.py] (the endpoint's [rx_loop] and [tx_loop]),
    the properties the design document states about them (C1 to C10), and
    further properties of the code (X1 to X26).

    Conventions of the embedding.
    - A Python [float] is a [pyfloat]: an exact rational, an infinity or
      NaN.  Comparisons follow IEEE 754 (every comparison with NaN is
      false); the rounding of finite values is not represented, and their
      range only where an int is converted ([OverflowError]).  Points of
      time ([time.time()], timeouts) are rationals.
    - A Python object that reaches [float(v)], [format] or a JSON frame is
      a [json] value: [None], a bool, an int, a float, a string, a list or a
      dict with string keys.
    - A Python exception is a value of [exn]; a computation that may raise
      returns a [result].  Methods that mutate [self] and print are programs
      of the monad [prog]: state passing, an output transcript and errors.
    - The network and the clock are inputs: every transport operation takes
      the [result] the transport would give it, [time.time()] is an
      argument.
    - [json.loads] is not modelled: a received text is represented by what
      [json.loads] makes of it ([message]).
    - Three functions of the Python runtime and of the package are inputs
      of the follower's methods: [float] on a string, [str] on a scalar that
      is used as a joint name, and the imported [ensure_safe_goal_position].
      The last one is not among the source files; where a property depends
      on what it computes, it is taken from the design document
      ([ensure_safe_goal_position_spec]).
    - A string is iterated byte by byte ([chars]), as Python does for ASCII.

    The file has three parts: the programs, the vocabulary of the
    properties, and the facts. *)

From Stdlib Require Import QArith Qabs Lqa.
From stdpp Require Import gmap strings list fin_maps.

Set Default Proof Using "Type".
Set Warnings "-register-all".

(* ===================================================================== *)
(** * Python values and exceptions *)
(* ===================================================================== *)

(** The exception classes the modelled code raises or catches; all of them
    are subclasses of [Exception]. *)
Inductive exn : Type :=
| TypeError
| ValueError
| KeyError
| IndexError
| AttributeError
| OverflowError
| RuntimeError (msg : string)
| OSError
| ConnectionClosed
| TimeoutError.

Inductive result (A : Type) : Type :=
| Ok (a : A)
| Raise (e : exn).
Arguments Ok {A} a.
Arguments Raise {A} e.

#[global] Instance result_ret : MRet result := λ A a, Ok a.
#[global] Instance result_bind : MBind result :=
  λ A B f r, match r with Ok a => f a | Raise e => Raise e end.

(** [[f(x) for x in l]] for an [f] that may raise: stops at the first
    exception. *)
Fixpoint map_result {A B} (f : A → result B) (l : list A) : result (list B) :=
  match l with
  | [] => Ok []
  | x :: l' => y ← f x; ys ← map_result f l'; Ok (y :: ys)
  end.

(** A Python [float]. *)
Inductive pyfloat : Type :=
| Finite (x : Q)
| PosInf
| NegInf
| NaN.

Definition Qltb (x y : Q) : bool := negb (Qle_bool y x).

(** [a < b], [a <= b] and [a == b] on floats. *)
Definition float_lt (a b : pyfloat) : bool :=
  match a, b with
  | Finite x, Finite y => Qltb x y
  | Finite _, PosInf => true
  | NegInf, Finite _ => true
  | NegInf, PosInf => true
  | _, _ => false
  end.

Definition float_le (a b : pyfloat) : bool :=
  match a, b with
  | Finite x, Finite y => Qle_bool x y
  | Finite _, PosInf => true
  | NegInf, Finite _ => true
  | NegInf, PosInf => true
  | PosInf, PosInf => true
  | NegInf, NegInf => true
  | _, _ => false
  end.

Definition float_eqb (a b : pyfloat) : bool :=
  match a, b with
  | Finite x, Finite y => Qeq_bool x y
  | PosInf, PosInf => true
  | NegInf, NegInf => true
  | _, _ => false
  end.

(** Python's two-argument [max] and [min]: the first argument is kept
    unless the second is strictly beyond it; so a first argument that is
    NaN is kept. *)
Definition py_max (a b : pyfloat) : pyfloat := if float_lt a b then b else a.
Definition py_min (a b : pyfloat) : pyfloat := if float_lt b a then b else a.

(** [-a], [a + b], [a - b] and [abs(a)] on floats. *)
Definition float_opp (a : pyfloat) : pyfloat :=
  match a with
  | Finite x => Finite (- x)
  | PosInf => NegInf
  | NegInf => PosInf
  | NaN => NaN
  end.

Definition float_add (a b : pyfloat) : pyfloat :=
  match a, b with
  | Finite x, Finite y => Finite (x + y)
  | NaN, _ => NaN
  | _, NaN => NaN
  | PosInf, NegInf => NaN
  | NegInf, PosInf => NaN
  | PosInf, _ => PosInf
  | _, PosInf => PosInf
  | NegInf, _ => NegInf
  | _, NegInf => NegInf
  end.

Definition float_sub (a b : pyfloat) : pyfloat := float_add a (float_opp b).

Definition float_abs (a : pyfloat) : pyfloat :=
  match a with
  | Finite x => Finite (Qabs x)
  | NaN => NaN
  | _ => PosInf
  end.

(** [float(n)] for an int: an int that rounds to a double beyond the largest
    one raises [OverflowError]. *)
Definition float_max_int : Z := 2 ^ 1024 - 2 ^ 970.

Definition float_of_int (n : Z) : result pyfloat :=
  if (Z.abs n <? float_max_int)%Z then Ok (Finite (inject_Z n))
  else Raise OverflowError.

Definition float_of_bool (b : bool) : pyfloat := Finite (if b then 1 else 0).

(** A value of Python as [json.loads] returns it (and as [json.dumps]
    accepts it).  An object keeps the members in the order of the text; a
    repeated key is resolved by the lookup ([py_get]: the last one wins, as
    in the dict that [json.loads] builds).  [json.loads] reads the literals
    [NaN], [Infinity] and [-Infinity], and numerals beyond the range of a
    double, as the floats NaN and the infinities. *)
Inductive json : Type :=
| JNull
| JBool (b : bool)
| JInt (n : Z)
| JFloat (x : pyfloat)
| JStr (s : string)
| JArr (items : list json)
| JObj (members : list (string * json)).

(** A received text frame, by what the receiver's first steps make of it. *)
Inductive message : Type :=
| Blank                (* the empty text: falsy, and not JSON *)
| Malformed            (* a non-empty text on which json.loads raises *)
| Decodes (d : json).  (* a non-empty text that json.loads decodes to d *)

Definition json_loads (msg : message) : result json :=
  match msg with
  | Decodes d => Ok d
  | Blank | Malformed => Raise ValueError
  end.

(** [d[k]] on the members of an object; [None] when the key is absent. *)
Fixpoint py_get (k : string) (members : list (string * json)) : option json :=
  match members with
  | [] => None
  | (k', v) :: rest =>
      match py_get k rest with
      | Some w => Some w
      | None => if String.eqb k k' then Some v else None
      end
  end.

(** [d.get(k)] and [d.get(k, dflt)] on any value: only a dict has [get]. *)
Definition dict_get (d : json) (k : string) (dflt : json) : result json :=
  match d with
  | JObj members => Ok (default dflt (py_get k members))
  | _ => Raise AttributeError
  end.

(** [k in d] for a dict [d]. *)
Definition has_key (k : string) (members : list (string * json)) : bool :=
  bool_decide (is_Some (py_get k members)).

(** [v == s] for a string literal [s]. *)
Definition eq_str (v : json) (s : string) : bool :=
  match v with
  | JStr s' => String.eqb s' s
  | _ => false
  end.

(** [isinstance(v, list)]. *)
Definition is_list (v : json) : bool :=
  match v with JArr _ => true | _ => false end.

Fixpoint chars (s : string) : list string :=
  match s with
  | EmptyString => []
  | String c s' => String c EmptyString :: chars s'
  end.

(** The keys of a dict, in insertion order, each once. *)
Fixpoint dict_keys (members : list (string * json)) (seen : list string) : list string :=
  match members with
  | [] => []
  | (k, _) :: rest =>
      if bool_decide (k ∈ seen) then dict_keys rest seen
      else k :: dict_keys rest (k :: seen)
  end.

(** [iter(v)]: lists, strings and dicts are iterable, the scalars are not. *)
Definition py_iter (v : json) : result (list json) :=
  match v with
  | JArr items => Ok items
  | JStr s => Ok (JStr <$> chars s)
  | JObj members => Ok (JStr <$> dict_keys members [])
  | _ => Raise TypeError
  end.

(** [len(v)]. *)
Definition py_len (v : json) : result nat :=
  match v with
  | JArr items => Ok (length items)
  | JStr s => Ok (String.length s)
  | JObj members => Ok (length (dict_keys members []))
  | _ => Raise TypeError
  end.

(** [f"{v:+.3f}"]: the float that gets formatted.  The format code [f] is
    defined for numbers (bool included) only; an int is converted to a
    float first, which raises for an int beyond the range of a double; NaN
    and the infinities are formatted. *)
Definition format_f (v : json) : result pyfloat :=
  match v with
  | JBool b => Ok (float_of_bool b)
  | JInt n => float_of_int n
  | JFloat x => Ok x
  | JStr _ => Raise ValueError
  | _ => Raise TypeError
  end.

(** [s.endswith(suffix)] and [s.removesuffix(suffix)]. *)
Fixpoint endswith (s suffix : string) : bool :=
  if String.eqb s suffix then true
  else match s with
       | EmptyString => false
       | String _ s' => endswith s' suffix
       end.

Fixpoint removesuffix (s suffix : string) : string :=
  if String.eqb s suffix then EmptyString
  else match s with
       | EmptyString => EmptyString
       | String c s' => String c (removesuffix s' suffix)
       end.

(** [f"{jn}.pos"] for a joint name that is a string. *)
Definition pos_key (jn : string) : string := jn +:+ ".pos".

(* ===================================================================== *)
(** * Programs: state, transcript and exceptions *)
(* ===================================================================== *)

Section Prog.
Context {S E : Type}.

Record outcome (A : Type) : Type := Outcome {
  final : S;              (* the state the program leaves *)
  emitted : list E;       (* what it printed, sent or waited for, in order *)
  value : result A;       (* what it returned or raised *)
}.

Definition prog (A : Type) : Type := S → outcome A.
End Prog.
Arguments outcome : clear implicits.
Arguments prog : clear implicits.
Arguments Outcome {S E A} final emitted value.
Arguments final {S E A} o.
Arguments emitted {S E A} o.
Arguments value {S E A} o.

Section ProgOps.
Context {S E : Type}.
Local Abbreviation prog := (prog S E).

#[global] Instance prog_ret : MRet prog := λ A a s, Outcome s [] (Ok a).

#[global] Instance prog_bind : MBind prog := λ A B f m s,
  match m s with
  | Outcome s1 out1 (Ok a) =>
      match f a s1 with
      | Outcome s2 out2 r => Outcome s2 (out1 ++ out2) r
      end
  | Outcome s1 out1 (Raise e) => Outcome s1 out1 (Raise e)
  end.

Definition raise {A} (e : exn) : prog A := λ s, Outcome s [] (Raise e).
Definition lift {A} (r : result A) : prog A := λ s, Outcome s [] r.
Definition get : prog S := λ s, Outcome s [] (Ok s).
Definition modify (f : S → S) : prog unit := λ s, Outcome (f s) [] (Ok tt).
Definition emit (e : E) : prog unit := λ s, Outcome s [e] (Ok tt).

(** [try: body  except Exception as e: handler(e)]. *)
Definition try_except {A} (body : prog A) (handler : exn → prog A) : prog A := λ s,
  match body s with
  | Outcome s1 out1 (Ok a) => Outcome s1 out1 (Ok a)
  | Outcome s1 out1 (Raise e) =>
      match handler e s1 with
      | Outcome s2 out2 r => Outcome s2 (out1 ++ out2) r
      end
  end.
End ProgOps.

(* ===================================================================== *)
(** * sim_ws_server_example.py: the endpoint's receive loop *)
(* ===================================================================== *)

Section Endpoint.

Definition JOINT_NAMES : list string :=
  ["shoulder_pan"; "shoulder_lift"; "elbow_flex"; "wrist_flex"; "wrist_roll"; "gripper"].

(** The module-level [q = [0.0]*len(JOINT_NAMES)]: the state of [rx_loop]. *)
Definition q_init : list json := replicate (length JOINT_NAMES) (JFloat (Finite 0)).

(** What [rx_loop] prints. *)
Inductive line : Type :=
| bad_json
| non_cmd_message (t : json)
| unsupported_mode (m : json)
| bad_target_len (n : nat)
| got_cmd (first : list pyfloat).

Local Abbreviation lift := (@lift (list json) line _).
Local Abbreviation emit := (@emit (list json) line).
Local Abbreviation modify := (@modify (list json) line).
Local Abbreviation get := (@get (list json) line).

(** One iteration of [async for msg in ws].  [Ok tt] is reaching the end of
    the body or a [continue]; an exception leaves the loop. *)
Definition rx_body (msg : message) : prog (list json) line unit :=
  match json_loads msg with
  | Raise _ => emit bad_json
  | Ok d =>
      t ← lift (dict_get d "type" JNull);
      if negb (eq_str t "cmd") then emit (non_cmd_message t)
      else
        mode ← lift (dict_get d "mode" JNull);
        if negb (eq_str mode "joint_position") then emit (unsupported_mode mode)
        else
          tgt ← lift (dict_get d "target" (JArr []));
          if negb (is_list tgt &&
                   match py_len tgt with
                   | Ok n => Nat.eqb n (length JOINT_NAMES)
                   | Raise _ => false
                   end)
          then n ← lift (py_len tgt); emit (bad_target_len n)
          else
            items ← lift (py_iter tgt);
            modify (λ _, items);;
            q ← get;
            vs ← lift (map_result format_f (take 6 q));
            emit (got_cmd vs)
  end.

(** [async for msg in ws] over the messages that arrive before the
    connection ends. *)
Fixpoint rx_loop (msgs : list message) : prog (list json) line unit :=
  match msgs with
  | [] => mret tt
  | msg :: rest => rx_body msg;; rx_loop rest
  end.

End Endpoint.

(* ===================================================================== *)
(** * config_so101_websim_follower.py *)
(* ===================================================================== *)

(** [max_relative_target: float | dict[str, float]]. *)
Inductive relative_target : Type :=
| for_all_joints (r : pyfloat)
| per_joint (limits : gmap string pyfloat).

Record SO101WebSimFollowerConfig : Type := {
  ws_url : string;
  joint_names : list string;
  max_relative_target : option relative_target;
  joint_min : option (list pyfloat);
  joint_max : option (list pyfloat);
}.

Definition default_joint_names : list string :=
  ["shoulder_pan"; "shoulder_lift"; "elbow_flex"; "wrist_flex"; "wrist_roll"; "gripper"].

Definition default_config : SO101WebSimFollowerConfig := {|
  ws_url := "ws://127.0.0.1:8765";
  joint_names := default_joint_names;
  max_relative_target := None;
  joint_min := None;
  joint_max := None;
|}.

(** The truth value of an optional list: [None] and [[]] are falsy. *)
Definition truthy {A} (l : option (list A)) : bool :=
  match l with
  | Some (_ :: _) => true
  | _ => false
  end.

(** [l[i]] on an optional list that was found truthy. *)
Definition index {A} (l : option (list A)) (i : nat) : result A :=
  match l ≫= (.!! i) with
  | Some x => Ok x
  | None => Raise IndexError
  end.

(* ===================================================================== *)
(** * so101_websim_follower.py: the state of a follower *)
(* ===================================================================== *)

(** A live websocket connection. *)
Inductive websocket : Type := Socket (id : nat).

Record SO101WebSimFollower : Type := Follower {
  _ws : option websocket;
  _seq : nat;
  _last_send_log : Q;
  _last_obs : gmap string pyfloat;
}.

Definition set_ws (w : option websocket) (self : SO101WebSimFollower) :=
  Follower w (_seq self) (_last_send_log self) (_last_obs self).
Definition set_seq (n : nat) (self : SO101WebSimFollower) :=
  Follower (_ws self) n (_last_send_log self) (_last_obs self).
Definition set_last_send_log (t : Q) (self : SO101WebSimFollower) :=
  Follower (_ws self) (_seq self) t (_last_obs self).
(** [self._last_obs[k] = x]. *)
Definition set_obs (k : string) (x : pyfloat) (self : SO101WebSimFollower) :=
  Follower (_ws self) (_seq self) (_last_send_log self) (<[k := x]> (_last_obs self)).

(** [{f"{jn}.pos": 0.0 for jn in joint_names}]. *)
Definition zero_positions (names : list string) : gmap string pyfloat :=
  foldl (λ d jn, <[pos_key jn := Finite 0]> d) ∅ names.

(** [__init__]; [now] is what [time.time()] returns. *)
Definition init (config : SO101WebSimFollowerConfig) (now : Q) : SO101WebSimFollower :=
  Follower None 0 0 (<["timestamp" := Finite now]> (zero_positions (joint_names config))).

(** The command frame that [send_action] builds. *)
Record payload : Type := Payload {
  p_type : string;
  p_seq : nat;
  p_mode : string;
  p_names : list string;
  p_target : list pyfloat;
  p_timestamp : Q;
}.

(** What a follower prints. *)
Inductive log : Type :=
| connected
| connect_failed (attempt : nat) (e : exn)
| disconnected
| warn_empty_goal
| cmd_sent (first : list pyfloat)
| send_failed (e : exn).

(** What a follower does to the outside, in order. *)
Inductive event : Type :=
| Print (l : log)
| Sleep (seconds : Q)
| Await (timeout : option Q)    (* run the event loop on a coroutine *)
| Connect (url : string)
| Send (p : payload)
| Recv.

(** [d[k]] on a dict of floats. *)
Definition getitem (d : gmap string pyfloat) (k : string) : result pyfloat :=
  match d !! k with
  | Some x => Ok x
  | None => Raise KeyError
  end.

(** [{k.removesuffix(".pos"): d[k] for k in d if k.endswith(".pos")}].
    Two keys that end in ".pos" never strip to the same name
    ([pos_entries_lookup]), so the order of the items plays no role. *)
Definition pos_entries (d : gmap string pyfloat) : gmap string pyfloat :=
  list_to_map
    (omap (λ kv : string * pyfloat,
             if endswith kv.1 ".pos" then Some (removesuffix kv.1 ".pos", kv.2) else None)
          (map_to_list d)).

(** [{jn: (goal_pos.get(jn, present[jn]), present[jn]) for jn in names}]. *)
Fixpoint goal_present_from (goal_pos present : gmap string pyfloat) (names : list string)
    (acc : gmap string (pyfloat * pyfloat)) : result (gmap string (pyfloat * pyfloat)) :=
  match names with
  | [] => Ok acc
  | jn :: rest =>
      p ← getitem present jn;
      goal_present_from goal_pos present rest (<[jn := (default p (goal_pos !! jn), p)]> acc)
  end.

(** The loop [for i, jn in enumerate(joint_names)] of the absolute clamp,
    from index [i] on. *)
Fixpoint clamp_from (lo_s hi_s : option (list pyfloat)) (goal_pos last_obs : gmap string pyfloat)
    (i : nat) (names : list string) (clamped : gmap string pyfloat)
    : result (gmap string pyfloat) :=
  match names with
  | [] => Ok clamped
  | jn :: rest =>
      lo ← index lo_s i;
      hi ← index hi_s i;
      last ← getitem last_obs (pos_key jn);
      let val := default last (goal_pos !! jn) in
      clamp_from lo_s hi_s goal_pos last_obs (S i) rest
                 (<[jn := py_min (py_max val lo) hi]> clamped)
  end.

(** [{f"{jn}.pos": target[i] for i, jn in enumerate(names)}]. *)
Definition positions_dict (names : list string) (target : list pyfloat)
    : gmap string pyfloat :=
  foldl (λ d jv, <[pos_key jv.1 := jv.2]> d) ∅ (zip names target).

(** Modelled from the spec: the relative limit of one joint, for
    [ensure_safe_goal_position] below.  The design document, external
    interfaces: the "optional per-joint relative-step limit" is a "scalar
    applied to all joints, or a named per-joint mapping". *)
Definition limit_of (limit : relative_target) (jn : string) : option pyfloat :=
  match limit with
  | for_all_joints r => Some r
  | per_joint limits => limits !! jn
  end.

(** Modelled from the spec: the relative clamp of one joint, for
    [ensure_safe_goal_position] below.  The design document, CommandShaper
    step 2: "clamp the candidate so |candidate - previous| <= limit (clamp
    toward previous, not reject)".  The words ask for the bound whatever
    the candidate is: an infinite candidate goes to the bound on its side,
    and a NaN, which compares with nothing, to [previous - limit]. *)
Definition clamp_relative (candidate previous limit : pyfloat) : pyfloat :=
  if float_le (float_abs (float_sub candidate previous)) limit then candidate
  else if float_le previous candidate then float_add previous limit
  else float_sub previous limit.

(** Modelled from the spec: [ensure_safe_goal_position] of the package's
    [robots/utils.py], which [send_action] imports and which is not among
    the source files.  It takes [{joint: (goal, present)}] and the configured
    limit and returns [{joint: goal}].  The design document, CommandShaper
    step 2: "If a relative limit is configured for that joint, clamp the
    candidate so |candidate - previous| <= limit"; a joint without a limit
    keeps its candidate. *)
Definition ensure_safe_goal_position_spec
    (goal_present : gmap string (pyfloat * pyfloat)) (limit : relative_target)
    : result (gmap string pyfloat) :=
  Ok (map_imap (λ jn gp,
        Some (match limit_of limit jn with
              | Some r => clamp_relative gp.1 gp.2 r
              | None => gp.1
              end)) goal_present).

(** The keys of a dict must be hashable: lists and dicts are not. *)
Definition hashable (k : json) : bool :=
  match k with
  | JArr _ | JObj _ => false
  | _ => true
  end.

(** Equality of dict keys: strings by content, [True == 1 == 1.0]; an int
    is compared with a float exactly.  The NaN that [json.loads] makes is
    one object, and a dict looks at the identity of a key before it asks
    [==]: NaN is the same key wherever it occurs in a frame. *)
Definition key_num (k : json) : option pyfloat :=
  match k with
  | JBool b => Some (float_of_bool b)
  | JInt n => Some (Finite (inject_Z n))
  | JFloat x => Some x
  | _ => None
  end.

Definition key_eqb (a b : json) : bool :=
  match a, b with
  | JStr s, JStr t => String.eqb s t
  | JNull, JNull => true
  | _, _ => match key_num a, key_num b with
            | Some NaN, Some NaN => true
            | Some x, Some y => float_eqb x y
            | _, _ => false
            end
  end.

(** [d[k] = v] on a dict kept as its items in insertion order: an existing
    key keeps its place (and its first spelling), a new one goes last. *)
Fixpoint dict_set (k v : json) (d : list (json * json)) : list (json * json) :=
  match d with
  | [] => [(k, v)]
  | (k', v') :: rest =>
      if key_eqb k' k then (k', v) :: rest else (k', v') :: dict_set k v rest
  end.

(** [dict(pairs)]. *)
Fixpoint dict_from (pairs : list (json * json)) (d : list (json * json))
    : result (list (json * json)) :=
  match pairs with
  | [] => Ok d
  | (k, v) :: rest =>
      if hashable k then dict_from rest (dict_set k v d) else Raise TypeError
  end.

Definition py_dict (pairs : list (json * json)) : result (list (json * json)) :=
  dict_from pairs [].

Section FollowerMethods.
(** [float(s)] for a string [s]: the float the text denotes, if any. *)
Variable float_of_str : string → option pyfloat.
(** [str(v)] for a scalar that is not a string ("None", "True", "1", ...). *)
Variable str_of_scalar : json → string.
(** The imported [ensure_safe_goal_position]. *)
Variable ensure_safe_goal_position :
  gmap string (pyfloat * pyfloat) → relative_target → result (gmap string pyfloat).
(** [self.config]. *)
Variable config : SO101WebSimFollowerConfig.

Local Abbreviation P := (prog SO101WebSimFollower event).
Local Abbreviation lift := (@lift SO101WebSimFollower event _).
Local Abbreviation raise := (@raise SO101WebSimFollower event _).
Local Abbreviation emit := (@emit SO101WebSimFollower event).
Local Abbreviation modify := (@modify SO101WebSimFollower event).
Local Abbreviation get := (@get SO101WebSimFollower event).

(** [float(v)]. *)
Definition py_float (v : json) : result pyfloat :=
  match v with
  | JBool b => Ok (float_of_bool b)
  | JInt n => float_of_int n
  | JFloat x => Ok x
  | JStr s => match float_of_str s with
              | Some x => Ok x
              | None => Raise ValueError
              end
  | _ => Raise TypeError
  end.

(** [f"{jn}.pos"] for any key of [name_to_val]. *)
Definition pos_key_of (jn : json) : string :=
  match jn with
  | JStr s => pos_key s
  | _ => pos_key (str_of_scalar jn)
  end.

Definition is_connected (self : SO101WebSimFollower) : bool :=
  match _ws self with Some _ => true | None => false end.

(** [asyncio.wait_for(coro, timeout)] on a coroutine that has not started.
    With a timeout that is not positive, [wait_for] cancels the coroutine
    at once: it never runs its first step, and [TimeoutError] is raised.
    With a positive timeout the coroutine runs; that the time runs out
    while it waits for the transport is an answer of the transport
    ([Raise TimeoutError]). *)
Definition wait_for {A} (coro : P A) (timeout : Q) : P A :=
  if Qle_bool timeout 0 then raise TimeoutError else coro.

(** [_run(coro, timeout)]: [run_until_complete], with [asyncio.wait_for]
    around the coroutine when a timeout is given; [_run] turns a
    [TimeoutError] into [None]. *)
Definition _run {A} (coro : P A) (timeout : option Q) : P (option A) := λ self,
  match match timeout with
        | None => coro self
        | Some seconds => wait_for coro seconds self
        end with
  | Outcome self' out (Ok a) => Outcome self' (Await timeout :: out) (Ok (Some a))
  | Outcome self' out (Raise TimeoutError) => Outcome self' (Await timeout :: out) (Ok None)
  | Outcome self' out (Raise e) => Outcome self' (Await timeout :: out) (Raise e)
  end.

(** [answer]: what [websockets.connect] gives within the time allowed. *)
Definition _async_connect (answer : result websocket) : P unit :=
  emit (Connect (ws_url config));;
  w ← lift answer;
  modify (set_ws (Some w)).

Definition _async_send (p : payload) (answer : result unit) : P unit :=
  self ← get;
  if negb (is_connected self) then raise (RuntimeError "websocket not connected")
  else
    emit (Send p);;
    try_except (lift answer)
      (λ e, match e with
            | ConnectionClosed => modify (set_ws None);; raise e
            | _ => raise e
            end).

(** [self._ws.recv()]; [answer]: what the transport has for it. *)
Definition recv (answer : result message) : P message :=
  emit Recv;; lift answer.

Definition _async_try_recv (answer : result message) : P (option message) :=
  self ← get;
  if negb (is_connected self) then mret None
  else
    try_except (msg ← wait_for (recv answer) 0; mret (Some msg))
      (λ e, match e with
            | TimeoutError => mret None
            | ConnectionClosed => modify (set_ws None);; mret None
            | _ => raise e
            end).

(** The loop [for attempt in range(10)] of [connect], over the attempts
    left; [net attempt] is the transport's answer to that attempt. *)
Fixpoint connect_attempts (net : nat → result websocket) (attempts : list nat) : P unit :=
  match attempts with
  | [] => mret tt
  | attempt :: rest =>
      try_except
        (_run (_async_connect (net attempt)) (Some 2%Q);;
         emit (Print connected))    (* break *)
        (λ e, emit (Print (connect_failed (attempt + 1) e));;
              emit (Sleep (1 # 2));;
              connect_attempts net rest)
  end.

(** The messages of the two [RuntimeError]s are kept without the [repr] of
    [self]. *)
Definition connect (net : nat → result websocket) : P unit :=
  self ← get;
  if is_connected self then raise (RuntimeError "already connected")
  else
    connect_attempts net (seq 0 10);;
    self ← get;
    if negb (is_connected self)
    then raise (RuntimeError "websim follower: cannot connect to simulator")
    else mret tt.

(** The dict [name_to_val] of [get_observation], for a frame of type
    "state" with the given members. *)
Definition name_to_val (members : list (string * json)) : result (list (json * json)) :=
  if has_key "names" members && has_key "joint_pos" members then
    names ← py_iter (default JNull (py_get "names" members));
    positions ← py_iter (default JNull (py_get "joint_pos" members));
    py_dict (zip names positions)
  else if has_key "joint_pos" members
          && is_list (default JNull (py_get "joint_pos" members)) then
    positions ← py_iter (default JNull (py_get "joint_pos" members));
    py_dict (zip (JStr <$> joint_names config) positions)
  else Ok [].

(** [for jn, v in name_to_val.items(): ...]. *)
Fixpoint merge_items (items : list (json * json)) : P unit :=
  match items with
  | [] => mret tt
  | (jn, v) :: rest =>
      self ← get;
      let key := pos_key_of jn in
      (if bool_decide (is_Some (_last_obs self !! key))
       then x ← lift (py_float v); modify (set_obs key x)
       else mret tt);;
      merge_items rest
  end.

(** The body of the [try] of [get_observation]. *)
Definition merge_frame (msg : message) (now : Q) : P unit :=
  data ← lift (json_loads msg);
  t ← lift (dict_get data "type" JNull);
  if eq_str t "state" then
    match data with
    | JObj members =>
        items ← lift (name_to_val members);
        merge_items items;;
        ts ← lift (py_float (default (JFloat (Finite now)) (py_get "timestamp" members)));
        modify (set_obs "timestamp" ts)
    | _ => raise AttributeError
    end
  else mret tt.

(** [answer]: what the transport would give a [recv]; [now]: what
    [time.time()] returns. *)
Definition get_observation (answer : result message) (now : Q)
    : P (gmap string pyfloat) :=
  r ← _run (_async_try_recv answer) (Some 0%Q);
  match default None r with
  | Some Blank | None => mret tt
  | Some msg => try_except (merge_frame msg now) (λ _, mret tt)
  end;;
  self ← get;
  mret (_last_obs self).

(** The value [goal_pos.get(jn, self._last_obs[f"{jn}.pos"])]. *)
Definition goal_or_last (goal_pos last_obs : gmap string pyfloat) (jn : string)
    : result pyfloat :=
  last ← getitem last_obs (pos_key jn);
  Ok (default last (goal_pos !! jn)).

(** [{k.removesuffix(".pos"): float(v) for k, v in action.items()
      if k.endswith(".pos")}], over the items in the order of the dict;
    the first [float(v)] that raises ends it. *)
Fixpoint goal_from (items : list (string * json)) (goal_pos : gmap string pyfloat)
    : result (gmap string pyfloat) :=
  match items with
  | [] => Ok goal_pos
  | (k, v) :: rest =>
      if endswith k ".pos" then
        x ← py_float v;
        goal_from rest (<[removesuffix k ".pos" := x]> goal_pos)
      else goal_from rest goal_pos
  end.

Definition extract_goal (action : list (string * json)) : result (gmap string pyfloat) :=
  goal_from action ∅.

(** [send_action], up to the list [payload["target"]]: the extraction of
    the goal, the relative safety and the absolute clamp.  These steps
    read [self] and do not change it. *)
Definition relative_safety (self : SO101WebSimFollower) (goal_pos : gmap string pyfloat)
    : result (gmap string pyfloat) :=
  match max_relative_target config with
  | Some limit =>
      let present := pos_entries (_last_obs self) in
      goal_present ← goal_present_from goal_pos present (joint_names config) ∅;
      ensure_safe_goal_position goal_present limit
  | None => Ok goal_pos
  end.

Definition absolute_clamp (self : SO101WebSimFollower) (goal_pos : gmap string pyfloat)
    : result (gmap string pyfloat) :=
  if truthy (joint_min config) && truthy (joint_max config) then
    clamp_from (joint_min config) (joint_max config) goal_pos (_last_obs self)
               0 (joint_names config) ∅
  else Ok goal_pos.

Definition shaped_target (self : SO101WebSimFollower) (action : list (string * json))
    : result (list pyfloat) :=
  goal_pos ← extract_goal action;
  goal_pos ← relative_safety self goal_pos;
  goal_pos ← absolute_clamp self goal_pos;
  map_result (goal_or_last goal_pos (_last_obs self)) (joint_names config).

(** [action]: the items of the action, in the order of the dict, with
    string keys; [t_payload] and [t_log]: what the two calls of
    [time.time()] return; [answer]: what the transport does with the
    frame. *)
Definition send_action (action : list (string * json)) (t_payload t_log : Q)
    (answer : result unit) : P (gmap string pyfloat) :=
  goal_pos ← lift (extract_goal action);
  (if bool_decide (goal_pos = ∅) then emit (Print warn_empty_goal) else mret tt);;
  self ← get;
  goal_pos ← lift (relative_safety self goal_pos);
  goal_pos ← lift (absolute_clamp self goal_pos);
  modify (λ self, set_seq (S (_seq self)) self);;
  self ← get;
  target ← lift (map_result (goal_or_last goal_pos (_last_obs self)) (joint_names config));
  let p := Payload "cmd" (_seq self) "joint_position" (joint_names config) target t_payload in
  (if Qltb 1 (t_log - _last_send_log self) || (_seq self <? 5)
   then emit (Print (cmd_sent (take 3 target)));; modify (set_last_send_log t_log)
   else mret tt);;
  try_except (_run (_async_send p answer) None;; mret tt)
             (λ e, emit (Print (send_failed e)));;
  modify (λ self, foldl (λ s jv, set_obs (pos_key jv.1) jv.2 s) self
                        (zip (joint_names config) target));;
  modify (set_obs "timestamp" (Finite t_payload));;
  mret (positions_dict (joint_names config) target).
End FollowerMethods.

(* ===================================================================== *)
(** * so101_websim_follower.py: features and disconnect *)
(* ===================================================================== *)

(** The one type the feature dicts name: [float]. *)
Inductive feature : Type := float_feature.

Section FollowerLifecycle.
Variable config : SO101WebSimFollowerConfig.

Local Abbreviation P := (prog SO101WebSimFollower event).

(** [{f"{jn}.pos": float for jn in self.config.joint_names}]. *)
Definition action_features : gmap string feature :=
  foldl (λ d jn, <[pos_key jn := float_feature]> d) ∅ (joint_names config).

(** [{**{f"{jn}.pos": float for jn in ...}, "timestamp": float}]. *)
Definition observation_features : gmap string feature :=
  <["timestamp" := float_feature]> action_features.

(** [try: body  finally: cleanup]: the cleanup runs in either case, and an
    exception of its own replaces the outcome of the body. *)
Definition try_finally {A} (body : P A) (cleanup : P unit) : P A := λ self,
  match body self with
  | Outcome self1 out1 r =>
      match cleanup self1 with
      | Outcome self2 out2 (Ok _) => Outcome self2 (out1 ++ out2) r
      | Outcome self2 out2 (Raise e) => Outcome self2 (out1 ++ out2) (Raise e)
      end
  end.

(** [answer]: what [self._ws.close()] does.  The transcript has no event
    for the close itself. *)
Definition _async_disconnect (answer : result unit) : P unit :=
  try_finally
    (self ← @get SO101WebSimFollower event;
     if is_connected self then lift answer else mret tt)
    (modify (set_ws None)).

(** The message of the [RuntimeError] is kept without the [repr] of
    [self]. *)
Definition disconnect (answer : result unit) : P unit :=
  self ← @get SO101WebSimFollower event;
  if negb (is_connected self) then raise (RuntimeError "is not connected")
  else
    _run (_async_disconnect answer) None;;
    emit (Print disconnected).
End FollowerLifecycle.

(* ===================================================================== *)
(** * sim_ws_server_example.py: the endpoint's publish loop *)
(* ===================================================================== *)

(** What [tx_loop] does to the outside. *)
Inductive wire : Type :=
| publish (frame : json)     (* ws.send(json.dumps(state)) *)
| nap (seconds : Q).         (* asyncio.sleep *)

(** How a run of [tx_loop] over finitely many ticks stands at its end. *)
Inductive loop_end : Type :=
| still_running
| returned.

(** The dict [state] of [tx_loop], as [json.loads] gives it back from
    [json.dumps(state)]. *)
Definition state_message (q : list json) (now : Q) : json :=
  JObj [("type", JStr "state");
        ("names", JArr (JStr <$> JOINT_NAMES));
        ("joint_pos", JArr q);
        ("timestamp", JFloat (Finite now))].

(** [while True] of [tx_loop] over the ticks given: a tick is what
    [time.time()] returns and what the transport does with the frame.  The
    loop reads the module-level [q] and has no exit but the [break]. *)
Fixpoint tx_loop (ticks : list (Q * result unit)) : prog (list json) wire loop_end :=
  match ticks with
  | [] => mret still_running
  | (now, answer) :: rest =>
      q ← @get (list json) wire;
      emit (publish (state_message q now));;
      match answer with
      | Ok _ => emit (nap (1 # 60));; tx_loop rest
      | Raise ConnectionClosed => mret returned     (* break *)
      | Raise e => raise e
      end
  end.

(** The dict [payload] of [send_action], as [json.loads] gives it back from
    [json.dumps(payload)]: what [rx_loop] decodes when the frame arrives. *)
Definition cmd_message (p : payload) : json :=
  JObj [("type", JStr (p_type p));
        ("seq", JInt (Z.of_nat (p_seq p)));
        ("mode", JStr (p_mode p));
        ("names", JArr (JStr <$> p_names p));
        ("target", JArr (JFloat <$> p_target p));
        ("timestamp", JFloat (Finite (p_timestamp p)))].


(* ===================================================================== *)
(** * The vocabulary of the properties *)
(* ===================================================================== *)

(** ** Floats *)

(** [lo <= v <= hi]; false when one of the three is NaN. *)
Definition in_range (lo hi v : pyfloat) : Prop :=
  float_le lo v = true ∧ float_le v hi = true.

(** The JSON floats of finite values. *)
Definition floats (xs : list Q) : list json := (λ x, JFloat (Finite x)) <$> xs.

(** ** The endpoint *)

(** A frame that [rx_body] applies: type "cmd", mode "joint_position" and a
    target list of the canonical length. *)
Definition valid_cmd (members : list (string * json)) (tgt : list json) : Prop :=
  py_get "type" members = Some (JStr "cmd") ∧
  py_get "mode" members = Some (JStr "joint_position") ∧
  py_get "target" members = Some (JArr tgt) ∧
  length tgt = length JOINT_NAMES.

(** A frame with one of the three defects that [rx_body] rejects. *)
Definition defective_cmd (members : list (string * json)) : Prop :=
  eq_str (default JNull (py_get "type" members)) "cmd" = false ∨
  eq_str (default JNull (py_get "mode" members)) "joint_position" = false ∨
  ∃ n, py_len (default (JArr []) (py_get "target" members)) = Ok n ∧
       n ≠ length JOINT_NAMES.

Definition example_bad_frame : list (string * json) :=
  [("type", JStr "cmd"); ("mode", JStr "joint_position");
   ("names", JArr [JStr "shoulder_pan"]); ("target", JArr (floats [1]%Q))].

Definition example_good_frame : list (string * json) :=
  [("type", JStr "cmd"); ("seq", JInt 2); ("mode", JStr "joint_position");
   ("target", JArr (floats [1; 2; 3; 4; 5; 6]%Q))].

(** [{"type": "cmd", "mode": "joint_position", "target": null}]. *)
Definition example_null_target : list (string * json) :=
  [("type", JStr "cmd"); ("mode", JStr "joint_position"); ("target", JNull)].

(** What a message is to [rx_loop]: skipped with a printed line ([None]),
    or a valid command whose target is all numbers that [format] accepts
    ([Some target]). *)
Definition rx_reads (msg : message) (applied : option (list json)) : Prop :=
  match applied with
  | None =>
      msg = Blank ∨ msg = Malformed ∨
      ∃ members, msg = Decodes (JObj members) ∧ defective_cmd members
  | Some tgt =>
      ∃ members vs, msg = Decodes (JObj members) ∧ valid_cmd members tgt ∧
                    map_result format_f tgt = Ok vs
  end.

(** The last of the targets applied, or [q] when there is none. *)
Definition last_applied (q : list json) (applied : list (option (list json))) : list json :=
  foldl (λ q a, default q a) q applied.

(** A decoded value that is no dict. *)
Definition not_a_dict (d : json) : Prop :=
  match d with
  | JObj _ => False
  | _ => True
  end.

(** What a tick of [tx_loop] whose send succeeds leaves in the transcript. *)
Definition published (q : list json) (tick : Q * result unit) : list wire :=
  [publish (state_message q tick.1); nap (1 # 60)].

(** How [tx_loop] ends on a send that raises [e]. *)
Definition tx_end (e : exn) : result loop_end :=
  match e with
  | ConnectionClosed => Ok returned
  | _ => Raise e
  end.

(** ** connect *)

(** The connection attempts in a transcript. *)
Definition attempts_made (events : list event) : nat :=
  length (List.filter (λ e, match e with Connect _ => true | _ => false end) events).

(** What one failed attempt leaves in the transcript. *)
Definition failed_attempt (config : SO101WebSimFollowerConfig) (attempt : nat) (e : exn)
    : list event :=
  [Await (Some 2%Q); Connect (ws_url config);
   Print (connect_failed (attempt + 1) e); Sleep (1 # 2)].

(** ** send_action *)

(** One item of the comprehension of [pos_entries]. *)
Definition strip_pos (kv : string * pyfloat) : option (string * pyfloat) :=
  if endswith kv.1 ".pos" then Some (removesuffix kv.1 ".pos", kv.2) else None.

(** The value a joint gets in [payload["target"]]: its goal, or else its
    cached position. *)
Definition shaped_value (goal_pos last_obs : gmap string pyfloat) (jn : string) : pyfloat :=
  default (default (Finite 0) (last_obs !! pos_key jn)) (goal_pos !! jn).

(** The command frames in a transcript, in order. *)
Definition frames_sent (events : list event) : list payload :=
  omap (λ e, match e with Send p => Some p | _ => None end) events.

(** Every configured joint has a cached position: true of [init] and kept
    by [get_observation] and [send_action]. *)
Definition obs_complete (config : SO101WebSimFollowerConfig) (self : SO101WebSimFollower)
    : Prop :=
  ∀ jn, jn ∈ joint_names config → is_Some (_last_obs self !! pos_key jn).

Section SendActionVocabulary.
Variable float_of_str : string → option pyfloat.
Variable config : SO101WebSimFollowerConfig.

(** What [float(v)] is when it does not raise. *)
Definition float_of (v : json) : pyfloat :=
  match py_float float_of_str v with
  | Ok x => x
  | Raise _ => NaN
  end.

(** [float(v)] does not raise. *)
Definition floatable (v : json) : Prop := ∃ x, py_float float_of_str v = Ok x.

(** Every value the action has under a key "<joint>.pos" is one that
    [float] accepts. *)
Definition floatable_action (action : list (string * json)) : Prop :=
  ∀ k v, (k, v) ∈ action → endswith k ".pos" = true → floatable v.

(** The cache [send_action] leaves when it returns: the target under the
    joints' keys and the timestamp of the frame. *)
Definition after_send (self : SO101WebSimFollower) (target : list pyfloat) (t_payload : Q)
    : gmap string pyfloat :=
  <["timestamp" := Finite t_payload]>
    (foldl (λ d jv, <[pos_key jv.1 := jv.2]> d) (_last_obs self)
           (zip (joint_names config) target)).

(** Every joint has a lower and an upper bound when the clamp is active. *)
Definition bounds_cover : Prop :=
  truthy (joint_min config) && truthy (joint_max config) = true →
  ∀ j jn, joint_names config !! j = Some jn →
    (∃ lo, index (joint_min config) j = Ok lo) ∧
    (∃ hi, index (joint_max config) j = Ok hi).

(** The previous position of joint [jn] lies within the bounds of every
    index at which the joint is listed, when the clamp is active. *)
Definition within_bounds (jn : string) (p : pyfloat) : Prop :=
  truthy (joint_min config) && truthy (joint_max config) = true →
  ∀ j lo hi, joint_names config !! j = Some jn →
    index (joint_min config) j = Ok lo → index (joint_max config) j = Ok hi →
    in_range lo hi p.

(** The configured relative limits are finite and not negative. *)
Definition limits_nonnegative : Prop :=
  ∀ limit jn r,
    max_relative_target config = Some limit → limit_of limit jn = Some r →
    ∃ x, r = Finite x ∧ (0 <= x)%Q.

(** When the clamp is active, every joint has bounds and its cached
    position lies within them. *)
Definition cache_within_bounds (self : SO101WebSimFollower) : Prop :=
  truthy (joint_min config) && truthy (joint_max config) = true →
  ∀ j jn, joint_names config !! j = Some jn →
    ∃ lo hi p, index (joint_min config) j = Ok lo ∧ index (joint_max config) j = Ok hi ∧
               _last_obs self !! pos_key jn = Some p ∧ in_range lo hi p.

End SendActionVocabulary.

(** ** get_observation *)

(** A frame that is no state frame: the empty text, a text that is no
    JSON, a JSON value that is no object, and an object whose type is not
    "state". *)
Definition ignored_frame (msg : message) : Prop :=
  match msg with
  | Decodes (JObj members) => eq_str (default JNull (py_get "type" members)) "state" = false
  | _ => True
  end.

(** ** Sessions *)

(** A call of one of the follower's public methods, with what the outside
    world answers during the call. *)
Inductive call : Type :=
| call_connect (net : nat → result websocket)
| call_disconnect (answer : result unit)
| call_get_observation (answer : result message) (now : Q)
| call_send_action (action : list (string * json)) (t_payload t_log : Q)
                   (answer : result unit).

Section SessionVocabulary.
Variable float_of_str : string → option pyfloat.
Variable str_of_scalar : json → string.
Variable ensure_safe_goal_position :
  gmap string (pyfloat * pyfloat) → relative_target → result (gmap string pyfloat).
Variable config : SO101WebSimFollowerConfig.

(** The follower after a call, whether the call returned or raised (the
    caller may catch the exception and go on with the same object). *)
Definition after_call (self : SO101WebSimFollower) (c : call) : SO101WebSimFollower :=
  match c with
  | call_connect net => final (connect config net self)
  | call_disconnect answer => final (disconnect answer self)
  | call_get_observation answer now =>
      final (get_observation float_of_str str_of_scalar config answer now self)
  | call_send_action action t_payload t_log answer =>
      final (send_action float_of_str ensure_safe_goal_position config
               action t_payload t_log answer self)
  end.

(** The follower constructed at [now] after the calls given, in order. *)
Definition session (now : Q) (calls : list call) : SO101WebSimFollower :=
  foldl after_call (init config now) calls.

End SessionVocabulary.

(** ** Concrete followers and frames *)

(** No string is a numeral, and names are strings: the two functions of the
    runtime, for examples in which they are not called. *)
Definition no_numeral : string → option pyfloat := λ _, None.
Definition no_scalar_name : json → string := λ _, EmptyString.

(** Two joints, no limits. *)
Definition config_ab : SO101WebSimFollowerConfig := {|
  ws_url := "ws://127.0.0.1:8765";
  joint_names := ["a"; "b"];
  max_relative_target := None;
  joint_min := None;
  joint_max := None;
|}.

(** Two joints, a relative limit of 0.1 for both. *)
Definition config_ab_relative : SO101WebSimFollowerConfig := {|
  ws_url := "ws://127.0.0.1:8765";
  joint_names := ["a"; "b"];
  max_relative_target := Some (for_all_joints (Finite (1 # 10)));
  joint_min := None;
  joint_max := None;
|}.

(** One joint that ranges over [1, 2], without and with a relative limit. *)
Definition config_a_range : SO101WebSimFollowerConfig := {|
  ws_url := "ws://127.0.0.1:8765";
  joint_names := ["a"];
  max_relative_target := None;
  joint_min := Some [Finite 1];
  joint_max := Some [Finite 2];
|}.

Definition config_a_range_relative : SO101WebSimFollowerConfig := {|
  ws_url := "ws://127.0.0.1:8765";
  joint_names := ["a"];
  max_relative_target := Some (for_all_joints (Finite (1 # 10)));
  joint_min := Some [Finite 1];
  joint_max := Some [Finite 2];
|}.

(** Two joints and bounds for the first of them only. *)
Definition config_ab_short_bounds : SO101WebSimFollowerConfig := {|
  ws_url := "ws://127.0.0.1:8765";
  joint_names := ["a"; "b"];
  max_relative_target := None;
  joint_min := Some [Finite 0];
  joint_max := Some [Finite 1];
|}.

(** A new follower of the default configuration, with a handle. *)
Definition online_follower : SO101WebSimFollower :=
  set_ws (Some (Socket 0)) (init default_config 0).

(** A follower with the given cache. *)
Definition follower_with (ws : option websocket) (obs : gmap string pyfloat)
    : SO101WebSimFollower :=
  Follower ws 7 0 obs.

Definition obs_ab (a b t : Q) : gmap string pyfloat :=
  <["a.pos" := Finite a]> (<["b.pos" := Finite b]> (<["timestamp" := Finite t]> ∅)).

Definition obs_a (a t : Q) : gmap string pyfloat :=
  <["a.pos" := Finite a]> (<["timestamp" := Finite t]> ∅).

(** [{"type": "state", "joint_pos": [0.2, 0.3]}]. *)
Definition frame_positions : list (string * json) :=
  [("type", JStr "state"); ("joint_pos", JArr (floats [1 # 5; 3 # 10]%Q))].

(** [{"type": "state", "names": ["a", "b"], "joint_pos": [0.5]}]. *)
Definition frame_short_positions : list (string * json) :=
  [("type", JStr "state"); ("names", JArr [JStr "a"; JStr "b"]);
   ("joint_pos", JArr (floats [1 # 2]%Q))].

(** [{"type": "state", "timestamp": 99}]. *)
Definition frame_timestamp_only : list (string * json) :=
  [("type", JStr "state"); ("timestamp", JInt 99)].

(* ===================================================================== *)
(** * Facts about the Python helpers *)
(* ===================================================================== *)

Ltac unfold_prog :=
  unfold mbind, mret, prog_bind, prog_ret, result_bind, result_ret,
         lift, raise, emit, modify, get, try_except in *.

Lemma run_bind {S E A B} (m : prog S E A) (f : A → prog S E B) (s : S) :
  (m ≫= f) s =
  match m s with
  | Outcome s1 out1 (Ok a) =>
      match f a s1 with
      | Outcome s2 out2 r => Outcome s2 (out1 ++ out2) r
      end
  | Outcome s1 out1 (Raise e) => Outcome s1 out1 (Raise e)
  end.
Proof. reflexivity. Qed.

Lemma py_get_app k members members' :
  py_get k (members ++ members') =
  match py_get k members' with
  | Some v => Some v
  | None => py_get k members
  end.
Proof.
  induction members as [|[k' v] rest IH]; cbn.
  - by destruct (py_get k members').
  - rewrite IH. by destruct (py_get k members').
Qed.

Lemma py_get_other k k' v members :
  k ≠ k' → py_get k (members ++ [(k', v)]) = py_get k members.
Proof.
  intros Hne. rewrite py_get_app. cbn.
  destruct (String.eqb_spec k k'); [done|]. done.
Qed.

(* ===================================================================== *)
(** * The endpoint's receive loop *)
(** * The endpoint's receive loop *)
(* ===================================================================== *)

Lemma rx_body_valid members tgt q :
  valid_cmd members tgt →
  final (rx_body (Decodes (JObj members)) q) = tgt.
Proof.
  intros (Ht & Hm & Htgt & Hlen). unfold rx_body. cbn.
  unfold_prog. cbn. rewrite Ht, Hm, Htgt. cbn. rewrite Hlen. cbn.
  by destruct (map_result format_f _).
Qed.

Lemma rx_body_valid_numbers members tgt q vs :
  valid_cmd members tgt →
  map_result format_f tgt = Ok vs →
  rx_body (Decodes (JObj members)) q = Outcome tgt [got_cmd vs] (Ok tt).
Proof.
  intros (Ht & Hm & Htgt & Hlen) Hvs. unfold rx_body. cbn.
  unfold_prog. cbn. rewrite Ht, Hm, Htgt. cbn. rewrite Hlen. cbn.
  rewrite firstn_all2 by (rewrite Hlen; cbn; lia).
  by rewrite Hvs.
Qed.

Lemma rx_body_defective members q :
  defective_cmd members →
  ∃ l, rx_body (Decodes (JObj members)) q = Outcome q [l] (Ok tt).
Proof.
  intros Hbad. unfold rx_body. cbn. unfold_prog. cbn.
  destruct (eq_str (default JNull (py_get "type" members)) "cmd") eqn:Ht; cbn;
    [|by eexists].
  destruct (eq_str (default JNull (py_get "mode" members)) "joint_position") eqn:Hm; cbn;
    [|by eexists].
  destruct Hbad as [?|[?|(n & Hn & Hne)]]; [congruence..|].
  rewrite Hn.
  destruct (is_list _); cbn; [|by eexists].
  destruct (Nat.eqb_spec n 6); [done|]. cbn. by eexists.
Qed.

Lemma valid_cmd_names members tgt names :
  valid_cmd members tgt → valid_cmd (members ++ [("names", names)]) tgt.
Proof.
  intros (Ht & Hm & Htgt & Hlen).
  repeat split; [rewrite py_get_other by done..|]; done.
Qed.

(** A frame of type "cmd" and mode "joint_position" whose target has no
    length: the rejection raises while it prints. *)
Lemma rx_body_unsized_target members tgt (q : list json) :
  py_get "type" members = Some (JStr "cmd") →
  py_get "mode" members = Some (JStr "joint_position") →
  py_get "target" members = Some tgt →
  py_len tgt = Raise TypeError →
  rx_body (Decodes (JObj members)) q = Outcome q [] (Raise TypeError).
Proof.
  intros Ht Hm Htgt Hlen. unfold rx_body. cbn. unfold_prog. cbn.
  rewrite Ht, Hm, Htgt. cbn. rewrite Hlen. by rewrite andb_false_r.
Qed.

(** C3.  [rx_loop] does not survive every frame it rejects.  A frame of
    type "cmd" and mode "joint_position" whose target has no length (null,
    a number, a bool) fails the test of the target, and then the line that
    reports the rejection evaluates [len(tgt)], which raises [TypeError]
    outside any [try].  [q] keeps its value, but nothing is printed, the
    loop has ended, and the well-formed command that follows is never
    applied - the same command that, received alone, replaces [q] by its
    target. *)
Theorem rx_loop_dies_rejecting_unsized_target bad bad_target good tgt (q : list json) :
  py_get "type" bad = Some (JStr "cmd") →
  py_get "mode" bad = Some (JStr "joint_position") →
  py_get "target" bad = Some bad_target →
  py_len bad_target = Raise TypeError →
  valid_cmd good tgt →
  rx_loop [Decodes (JObj bad); Decodes (JObj good)] q = Outcome q [] (Raise TypeError) ∧
  final (rx_loop [Decodes (JObj good)] q) = tgt.
Proof.
  intros Ht Hm Htgt Hlen Hgood. split.
  - cbn [rx_loop]. rewrite run_bind.
    by rewrite (rx_body_unsized_target bad bad_target q Ht Hm Htgt Hlen).
  - pose proof (rx_body_valid good tgt q Hgood) as Hfin.
    cbn [rx_loop]. rewrite run_bind.
    by destruct (rx_body (Decodes (JObj good)) q) as [s1 out1 [[]|e]].
Qed.

Lemma rx_loop_dies_rejecting_unsized_target_witness :
  rx_loop [Decodes (JObj example_null_target); Decodes (JObj example_good_frame)] q_init
  = Outcome q_init [] (Raise TypeError) ∧
  final (rx_loop [Decodes (JObj example_good_frame)] q_init) = floats [1; 2; 3; 4; 5; 6]%Q.
Proof.
  apply (rx_loop_dies_rejecting_unsized_target example_null_target JNull
           example_good_frame (floats [1; 2; 3; 4; 5; 6]%Q) q_init).
  - reflexivity.
  - reflexivity.
  - reflexivity.
  - reflexivity.
  - repeat split.
Defined.

(** C9.  [rx_body] applies the target of a valid command by position and
    never reads the frame's "names": whatever the frame carries under that
    key (nothing, a permutation, wrong names, a value that is no list),
    [q] becomes exactly the target list. *)
Theorem rx_body_ignores_names (q : list json) members tgt :
  valid_cmd members tgt →
  final (rx_body (Decodes (JObj members)) q) = tgt ∧
  ∀ names, final (rx_body (Decodes (JObj (members ++ [("names", names)]))) q) = tgt.
Proof.
  intros Hvalid. split; [by apply rx_body_valid|].
  intros names. by apply rx_body_valid, valid_cmd_names.
Qed.

Lemma rx_body_ignores_names_witness :
  final (rx_body (Decodes (JObj example_good_frame)) q_init)
  = floats [1; 2; 3; 4; 5; 6]%Q ∧
  final (rx_body (Decodes (JObj (example_good_frame
           ++ [("names", JArr [JStr "gripper"; JStr "elbow_flex"])]))) q_init)
  = floats [1; 2; 3; 4; 5; 6]%Q.
Proof.
  destruct (rx_body_ignores_names q_init example_good_frame
              (floats [1; 2; 3; 4; 5; 6]%Q))
    as [H1 H2]; [repeat split|].
  split; [exact H1 | apply H2].
Defined.

(* ===================================================================== *)
(** * connect *)
(* ===================================================================== *)

Section ConnectFacts.
Variable config : SO101WebSimFollowerConfig.
Variable net : nat → result websocket.

Lemma attempt_fails self attempt rest e :
  net attempt = Raise e → e ≠ TimeoutError →
  connect_attempts config net (attempt :: rest) self =
  let o := connect_attempts config net rest self in
  Outcome (final o) (failed_attempt config attempt e ++ emitted o) (value o).
Proof.
  intros Hnet He. cbn [connect_attempts]. unfold _run, wait_for, _async_connect.
  change (Qle_bool 2 0) with false.
  unfold_prog. rewrite Hnet. cbn.
  destruct e; try done; by destruct (connect_attempts config net rest self).
Qed.

Lemma attempt_succeeds self attempt rest w :
  net attempt = Ok w →
  connect_attempts config net (attempt :: rest) self =
  Outcome (set_ws (Some w) self)
          [Await (Some 2%Q); Connect (ws_url config); Print connected] (Ok tt).
Proof.
  intros Hnet. cbn [connect_attempts]. unfold _run, wait_for, _async_connect.
  change (Qle_bool 2 0) with false.
  unfold_prog. by rewrite Hnet.
Qed.

Lemma attempt_times_out self attempt rest :
  net attempt = Raise TimeoutError →
  connect_attempts config net (attempt :: rest) self =
  Outcome self [Await (Some 2%Q); Connect (ws_url config); Print connected] (Ok tt).
Proof.
  intros Hnet. cbn [connect_attempts]. unfold _run, wait_for, _async_connect.
  change (Qle_bool 2 0) with false.
  unfold_prog. by rewrite Hnet.
Qed.

(** When every attempt is refused, all of them are made. *)
Lemma attempts_all_fail self (attempts : list nat) :
  (∀ k, k ∈ attempts → ∃ e, net k = Raise e ∧ e ≠ TimeoutError) →
  let o := connect_attempts config net attempts self in
  final o = self ∧ value o = Ok tt ∧ attempts_made (emitted o) = length attempts.
Proof.
  induction attempts as [|k rest IH]; intros Hall; [done|].
  destruct (Hall k) as (e & Hk & He); [by left|].
  rewrite (attempt_fails _ _ _ e) by done.
  destruct IH as (Hfin & Hval & Hcount); [intros; apply Hall; by right|].
  cbn. repeat split; [done..|].
  unfold attempts_made in *. cbn. by rewrite Hcount.
Qed.

(** X9.  When each of the ten attempts is refused with an exception other
    than a timeout, [connect] makes all ten, then raises the [RuntimeError]
    "cannot connect to simulator" and leaves the follower as it was. *)
Theorem connect_exhausts_budget self :
  _ws self = None →
  (∀ k, (k < 10)%nat → ∃ e, net k = Raise e ∧ e ≠ TimeoutError) →
  let o := connect config net self in
  final o = self ∧
  value o = Raise (RuntimeError "websim follower: cannot connect to simulator") ∧
  attempts_made (emitted o) = 10%nat.
Proof.
  intros Hws Hall.
  destruct (attempts_all_fail self (seq 0 10)) as (Hfin & Hval & Hcount).
  { intros k Hk. apply Hall. apply elem_of_seq in Hk. lia. }
  assert (connect config net self =
          Outcome self (emitted (connect_attempts config net (seq 0 10) self))
            (Raise (RuntimeError "websim follower: cannot connect to simulator"))) as ->.
  { unfold connect. remember (connect_attempts config net (seq 0 10)) as loop.
    destruct (loop self) as [fin evs val] eqn:Hloop. cbn in Hfin, Hval. subst fin val.
    unfold is_connected. unfold_prog. cbn. rewrite Hws, Hloop. cbn.
    rewrite Hws. cbn. by rewrite app_nil_r. }
  done.
Qed.

(** Refused attempts before the others only add to the transcript. *)
Lemma attempts_refused_first self (refused rest : list nat) :
  (∀ k, k ∈ refused → ∃ e, net k = Raise e ∧ e ≠ TimeoutError) →
  ∃ events,
    attempts_made events = length refused ∧
    connect_attempts config net (refused ++ rest) self =
    Outcome (final (connect_attempts config net rest self))
            (events ++ emitted (connect_attempts config net rest self))
            (value (connect_attempts config net rest self)).
Proof.
  induction refused as [|k refused IH]; intros Hall.
  - exists []. split; [done|]. cbn [app]. by destruct (connect_attempts config net rest self).
  - destruct (Hall k) as (e & Hk & He); [by left|].
    destruct IH as (events & Hcount & Hrun); [intros; apply Hall; by right|].
    exists (failed_attempt config k e ++ events). split.
    + unfold attempts_made in *. cbn. by rewrite Hcount.
    + cbn [app]. rewrite (attempt_fails _ _ _ e) by done. by rewrite Hrun.
Qed.

(** The first attempt that succeeds, after refused ones, ends [connect]
    with its handle stored. *)
Lemma connect_stores_handle self k w :
  _ws self = None →
  (k < 10)%nat →
  (∀ j, (j < k)%nat → ∃ e, net j = Raise e ∧ e ≠ TimeoutError) →
  net k = Ok w →
  final (connect config net self) = set_ws (Some w) self ∧
  value (connect config net self) = Ok tt ∧
  attempts_made (emitted (connect config net self)) = S k.
Proof.
  intros Hws Hk Hrefused Hnet.
  destruct (attempts_refused_first self (seq 0 k) (seq k (10 - k))) as (events & Hcount & Hrun).
  { intros j Hj%elem_of_seq. apply Hrefused. lia. }
  rewrite <- seq_app in Hrun. replace (k + (10 - k))%nat with 10%nat in Hrun by lia.
  destruct (10 - k)%nat as [|n] eqn:Hn; [lia|].
  change (seq k (S n)) with (k :: seq (S k) n) in Hrun.
  rewrite (attempt_succeeds _ _ _ w) in Hrun by done.
  cbn [final emitted value] in Hrun.
  unfold connect. remember (connect_attempts config net (seq 0 10)) as loop.
  unfold is_connected. unfold_prog. cbn. rewrite Hws, Hrun. cbn.
  rewrite app_nil_r. repeat split.
  unfold attempts_made in *. rewrite List.filter_app, length_app, Hcount, length_seq.
  cbn. lia.
Qed.

(** C4.  The retry budget is not honoured when an attempt runs into its
    2 s bound: [_run] turns the [TimeoutError] into [None], so [connect]
    takes the attempt for a success, prints "connected", leaves the loop
    and then raises because there is no handle.  With a first attempt that
    times out, one attempt is made instead of ten. *)
Theorem connect_gives_up_after_timeout self :
  _ws self = None →
  net 0%nat = Raise TimeoutError →
  connect config net self =
  Outcome self
    [Await (Some 2%Q); Connect (ws_url config); Print connected]
    (Raise (RuntimeError "websim follower: cannot connect to simulator")) ∧
  attempts_made (emitted (connect config net self)) = 1%nat.
Proof.
  intros Hws Hnet.
  assert (connect config net self =
          Outcome self [Await (Some 2%Q); Connect (ws_url config); Print connected]
            (Raise (RuntimeError "websim follower: cannot connect to simulator"))) as ->.
  { unfold connect. change (seq 0 10) with (0%nat :: seq 1 9).
    remember (connect_attempts config net (0%nat :: seq 1 9)) as loop eqn:Hloop.
    unfold is_connected. unfold_prog. cbn. rewrite Hws. subst loop.
    rewrite attempt_times_out by done. cbn. by rewrite Hws. }
  done.
Qed.
End ConnectFacts.

Lemma connect_gives_up_after_timeout_witness :
  connect default_config (λ _, Raise TimeoutError) (init default_config 0) =
  Outcome (init default_config 0)
    [Await (Some 2%Q); Connect "ws://127.0.0.1:8765"; Print connected]
    (Raise (RuntimeError "websim follower: cannot connect to simulator")) ∧
  attempts_made
    (emitted (connect default_config (λ _, Raise TimeoutError) (init default_config 0)))
  = 1%nat.
Proof.
  apply (connect_gives_up_after_timeout default_config (λ _, Raise TimeoutError)
           (init default_config 0)); reflexivity.
Defined.

(* ===================================================================== *)
(** * Keys of the form "<joint>.pos" *)
(* ===================================================================== *)

Lemma append_nil s : "" +:+ s = s.
Proof. reflexivity. Qed.

Lemma append_cons c s t : String c s +:+ t = String c (s +:+ t).
Proof. reflexivity. Qed.

Lemma length_append s t :
  String.length (s +:+ t) = (String.length s + String.length t)%nat.
Proof.
  induction s as [|c s IH]; [done|].
  rewrite append_cons. cbn. by rewrite IH.
Qed.

Lemma endswith_refl s : endswith s s = true.
Proof. destruct s; cbn; by rewrite ?Ascii.eqb_refl, ?String.eqb_refl. Qed.

Lemma removesuffix_refl s : removesuffix s s = "".
Proof. destruct s; cbn; by rewrite ?Ascii.eqb_refl, ?String.eqb_refl. Qed.

Lemma endswith_app s suffix : endswith (s +:+ suffix) suffix = true.
Proof.
  induction s as [|c s IH]; rewrite ?append_nil, ?append_cons.
  - apply endswith_refl.
  - cbn [endswith]. rewrite IH. by destruct (String.eqb _ _).
Qed.

Lemma removesuffix_app s suffix : removesuffix (s +:+ suffix) suffix = s.
Proof.
  induction s as [|c s IH]; rewrite ?append_nil, ?append_cons.
  - apply removesuffix_refl.
  - cbn [removesuffix].
    destruct (String.eqb_spec (String c (s +:+ suffix)) suffix) as [Heq|_].
    + apply (f_equal String.length) in Heq. cbn in Heq.
      rewrite length_append in Heq. lia.
    + by rewrite IH.
Qed.

Lemma endswith_split k suffix :
  endswith k suffix = true → k = removesuffix k suffix +:+ suffix.
Proof.
  induction k as [|c k IH]; cbn [endswith removesuffix].
  - by destruct (String.eqb_spec "" suffix).
  - destruct (String.eqb_spec (String c k) suffix) as [Heq|_]; [done|].
    intros Hk. rewrite append_cons. by rewrite <- IH.
Qed.

Lemma endswith_pos_key jn : endswith (pos_key jn) ".pos" = true.
Proof. apply endswith_app. Qed.

Lemma removesuffix_pos_key jn : removesuffix (pos_key jn) ".pos" = jn.
Proof. apply removesuffix_app. Qed.

#[global] Instance pos_key_inj : Inj (=) (=) pos_key.
Proof.
  intros a b Heq. by rewrite <- (removesuffix_pos_key a), Heq, removesuffix_pos_key.
Qed.

Lemma pos_key_not_timestamp jn : pos_key jn ≠ "timestamp".
Proof.
  intros Heq. pose proof (endswith_pos_key jn) as Hend. by rewrite Heq in Hend.
Qed.

Lemma strip_pos_Some kv jn v :
  strip_pos kv = Some (jn, v) ↔ kv = (pos_key jn, v).
Proof.
  unfold strip_pos. destruct kv as [k w]; cbn. split.
  - destruct (endswith k ".pos") eqn:Hk; [|done].
    intros [= <- <-]. f_equal. by apply endswith_split.
  - intros [= -> ->]. by rewrite endswith_pos_key, removesuffix_pos_key.
Qed.

Lemma strip_pos_NoDup (l : list (string * pyfloat)) :
  NoDup l.*1 → NoDup (omap strip_pos l).*1.
Proof.
  induction l as [|[k v] l IH]; cbn; [constructor|].
  intros [Hk Hl]%NoDup_cons.
  destruct (strip_pos (k, v)) as [[jn w]|] eqn:Hs; [|by apply IH].
  cbn. apply NoDup_cons. split; [|by apply IH].
  apply strip_pos_Some in Hs as [= -> ->].
  intros ([jn' w'] & -> & Hin)%list_elem_of_fmap.
  apply list_elem_of_omap in Hin as (kv & Hkv & Hs).
  apply strip_pos_Some in Hs as ->.
  apply Hk. apply list_elem_of_fmap. by exists (pos_key jn', w').
Qed.

(** The comprehension keeps exactly the entries under "<joint>.pos", under
    the joint's name. *)
Lemma pos_entries_lookup (d : gmap string pyfloat) jn :
  pos_entries d !! jn = d !! pos_key jn.
Proof.
  unfold pos_entries. fold strip_pos.
  apply option_eq. intros v.
  rewrite <- elem_of_list_to_map
    by apply strip_pos_NoDup, NoDup_fst_map_to_list.
  rewrite list_elem_of_omap. split.
  - intros (kv & Hkv & ->%strip_pos_Some). by apply elem_of_map_to_list.
  - intros Hv. exists (pos_key jn, v). split.
    + by apply elem_of_map_to_list.
    + by apply strip_pos_Some.
Qed.

(* ===================================================================== *)
(** * Dict comprehensions and loops over the joint names *)
(* ===================================================================== *)

Section FoldInsert.
Context {A V : Type}.
Variable key : A → string.
Variable val : A → V.

Lemma foldl_insert_notin (l : list A) (acc : gmap string V) k :
  k ∉ key <$> l →
  foldl (λ d x, <[key x := val x]> d) acc l !! k = acc !! k.
Proof.
  revert acc. induction l as [|x l IH]; intros acc Hk; [done|].
  cbn in *. apply not_elem_of_cons in Hk as [Hne Hk].
  rewrite IH by done. by rewrite lookup_insert_ne.
Qed.

(** Later items overwrite earlier ones; when equal keys carry equal values
    every item is found under its key. *)
Lemma foldl_insert_in (l : list A) (acc : gmap string V) x :
  (∀ y z, y ∈ l → z ∈ l → key y = key z → val y = val z) →
  x ∈ l →
  foldl (λ d x, <[key x := val x]> d) acc l !! key x = Some (val x).
Proof.
  revert acc x. induction l as [|y l IH]; intros acc x Hsame Hx; [by inversion Hx|].
  cbn. destruct (decide (key x ∈ key <$> l)) as [Hin|Hnotin].
  - apply list_elem_of_fmap in Hin as (z & Hkz & Hz).
    rewrite Hkz, (Hsame x z); [|done|by right|done].
    apply IH; [|done]. intros ????. apply Hsame; by right.
  - rewrite foldl_insert_notin by done.
    apply elem_of_cons in Hx as [->|Hx]; [by rewrite lookup_insert_eq|].
    exfalso. apply Hnotin. apply list_elem_of_fmap. by exists x.
Qed.
End FoldInsert.

Lemma zip_fmap_r {A B} (f : A → B) (l : list A) :
  zip l (f <$> l) = (λ x, (x, f x)) <$> l.
Proof. induction l; cbn; by f_equal. Qed.

Lemma positions_dict_lookup (names : list string) (val : string → pyfloat) jn :
  jn ∈ names →
  positions_dict names (val <$> names) !! pos_key jn = Some (val jn).
Proof.
  intros Hjn. unfold positions_dict. rewrite zip_fmap_r.
  apply (foldl_insert_in (λ jv : string * pyfloat, pos_key jv.1) snd _ _ (jn, val jn)).
  - intros [a x] [b y] (a' & [= -> ->] & _)%list_elem_of_fmap
      (b' & [= -> ->] & _)%list_elem_of_fmap Hab. cbn in *.
    by apply (inj pos_key) in Hab as ->.
  - apply list_elem_of_fmap. by exists jn.
Qed.

(** The optimistic update of [send_action] on the whole of [self]. *)
Lemma optimistic_update_obs (items : list (string * pyfloat)) self :
  _last_obs (foldl (λ s jv, set_obs (pos_key jv.1) jv.2 s) self items) =
  foldl (λ d jv, <[pos_key jv.1 := jv.2]> d) (_last_obs self) items.
Proof. revert self. induction items as [|jv items IH]; intros self; [done|]. cbn. by rewrite IH. Qed.

Lemma optimistic_update_frame (items : list (string * pyfloat)) self :
  let self' := foldl (λ s jv, set_obs (pos_key jv.1) jv.2 s) self items in
  _ws self' = _ws self ∧ _seq self' = _seq self ∧
  _last_send_log self' = _last_send_log self.
Proof.
  revert self. induction items as [|jv items IH]; intros self; [done|]. cbn.
  destruct (IH (set_obs (pos_key jv.1) jv.2 self)) as (-> & -> & ->). done.
Qed.

Lemma map_result_ok_inv {A B} (f : A → result B) (l : list A) ys :
  map_result f l = Ok ys → Forall2 (λ x y, f x = Ok y) l ys.
Proof.
  revert ys. induction l as [|x l IH]; intros ys; cbn.
  - intros [= <-]. constructor.
  - unfold mbind, result_bind. destruct (f x) as [y|] eqn:Hx; [|done].
    destruct (map_result f l) as [ys'|]; [|done]. intros [= <-].
    constructor; [done|]. by apply IH.
Qed.

Lemma map_result_ok {A B} (f : A → result B) (g : A → B) (l : list A) :
  (∀ x, x ∈ l → f x = Ok (g x)) → map_result f l = Ok (g <$> l).
Proof.
  induction l as [|x l IH]; intros Hall; [done|]. cbn.
  unfold mbind, result_bind. rewrite Hall by left.
  rewrite IH; [done|]. intros; apply Hall; by right.
Qed.

Lemma goal_or_last_ok goal_pos last_obs jn v :
  goal_or_last goal_pos last_obs jn = Ok v →
  is_Some (last_obs !! pos_key jn) ∧ v = shaped_value goal_pos last_obs jn.
Proof.
  unfold goal_or_last, getitem, shaped_value, mbind, result_bind.
  destruct (last_obs !! pos_key jn) as [last|]; [|done].
  intros [= <-]. by split.
Qed.

Lemma target_ok_inv goal_pos last_obs names target :
  map_result (goal_or_last goal_pos last_obs) names = Ok target →
  target = shaped_value goal_pos last_obs <$> names ∧
  ∀ jn, jn ∈ names → is_Some (last_obs !! pos_key jn).
Proof.
  intros H%map_result_ok_inv. induction H as [|jn v names target Hv _ [IH1 IH2]].
  - split; [done|]. intros jn Hjn. by inversion Hjn.
  - apply goal_or_last_ok in Hv as [Hsome ->]. split; [cbn; by f_equal|].
    intros jn' [->|Hjn']%elem_of_cons; [done|by apply IH2].
Qed.

Lemma target_ok goal_pos last_obs names :
  (∀ jn, jn ∈ names → is_Some (last_obs !! pos_key jn)) →
  map_result (goal_or_last goal_pos last_obs) names
  = Ok (shaped_value goal_pos last_obs <$> names).
Proof.
  intros Hall. apply map_result_ok. intros jn Hjn.
  unfold goal_or_last, getitem, shaped_value, mbind, result_bind.
  by destruct (Hall jn Hjn) as [last ->].
Qed.

Lemma index_Ok {A} (l : option (list A)) i x :
  index l i = Ok x ↔ ∃ xs, l = Some xs ∧ xs !! i = Some x.
Proof.
  unfold index. destruct l as [xs|]; cbn.
  - destruct (xs !! i) eqn:Hi; split; try done.
    + intros [= ->]. by exists xs.
    + intros (? & [= <-] & ?). congruence.
    + intros (? & [= <-] & ?). congruence.
  - split; [done|]. by intros (? & ? & ?).
Qed.

Lemma goal_present_from_inv goal_pos present names acc gp :
  goal_present_from goal_pos present names acc = Ok gp →
  (∀ jn, jn ∈ names →
     ∃ p, present !! jn = Some p ∧ gp !! jn = Some (default p (goal_pos !! jn), p)) ∧
  (∀ jn, jn ∉ names → gp !! jn = acc !! jn).
Proof.
  revert acc. induction names as [|jn0 names IH]; intros acc; cbn.
  - intros [= <-]. split; [|done]. intros jn Hjn. by inversion Hjn.
  - unfold mbind, result_bind, getitem.
    destruct (present !! jn0) as [p|] eqn:Hp; [|done].
    intros [IH1 IH2]%IH. split.
    + intros jn Hjn. destruct (decide (jn ∈ names)) as [Hin|Hnotin]; [by apply IH1|].
      apply elem_of_cons in Hjn as [->|?]; [|done].
      exists p. split; [done|]. by rewrite IH2, lookup_insert_eq.
    + intros jn [Hne Hnotin]%not_elem_of_cons.
      by rewrite IH2, lookup_insert_ne.
Qed.

Lemma goal_present_from_ok goal_pos present names acc :
  (∀ jn, jn ∈ names → is_Some (present !! jn)) →
  ∃ gp, goal_present_from goal_pos present names acc = Ok gp.
Proof.
  revert acc. induction names as [|jn0 names IH]; intros acc Hall; cbn; [by eexists|].
  unfold mbind, result_bind, getitem.
  destruct (Hall jn0) as [p ->]; [by left|].
  apply IH. intros; apply Hall; by right.
Qed.

Lemma clamp_from_inv lo_s hi_s goal_pos last_obs i names acc clamped :
  clamp_from lo_s hi_s goal_pos last_obs i names acc = Ok clamped →
  (∀ jn, jn ∈ names →
     ∃ j lo hi last,
       names !! j = Some jn ∧ index lo_s (i + j) = Ok lo ∧ index hi_s (i + j) = Ok hi ∧
       last_obs !! pos_key jn = Some last ∧
       clamped !! jn = Some (py_min (py_max (default last (goal_pos !! jn)) lo) hi)) ∧
  (∀ jn, jn ∉ names → clamped !! jn = acc !! jn).
Proof.
  revert i acc. induction names as [|jn0 names IH]; intros i acc; cbn.
  - intros [= <-]. split; [|done]. intros jn Hjn. by inversion Hjn.
  - unfold mbind, result_bind, getitem.
    destruct (index lo_s i) as [lo|] eqn:Hlo; [|done].
    destruct (index hi_s i) as [hi|] eqn:Hhi; [|done].
    destruct (last_obs !! pos_key jn0) as [last|] eqn:Hlast; [|done].
    intros [IH1 IH2]%IH. split.
    + intros jn Hjn. destruct (decide (jn ∈ names)) as [Hin|Hnotin].
      * destruct (IH1 jn Hin) as (j & lo' & hi' & last' & ? & ? & ? & ? & ?).
        exists (S j), lo', hi', last'.
        by replace (i + S j)%nat with (S i + j)%nat by lia.
      * apply elem_of_cons in Hjn as [->|?]; [|done].
        exists 0%nat, lo, hi, last. rewrite Nat.add_0_r.
        by rewrite IH2, lookup_insert_eq.
    + intros jn [Hne Hnotin]%not_elem_of_cons.
      by rewrite IH2, lookup_insert_ne.
Qed.

Lemma clamp_from_ok lo_s hi_s goal_pos last_obs i names acc :
  (∀ j jn, names !! j = Some jn →
     (∃ lo, index lo_s (i + j) = Ok lo) ∧ (∃ hi, index hi_s (i + j) = Ok hi) ∧
     is_Some (last_obs !! pos_key jn)) →
  ∃ clamped, clamp_from lo_s hi_s goal_pos last_obs i names acc = Ok clamped.
Proof.
  revert i acc. induction names as [|jn0 names IH]; intros i acc Hall; cbn; [by eexists|].
  unfold mbind, result_bind, getitem.
  destruct (Hall 0%nat jn0) as ([lo Hlo] & [hi Hhi] & [last Hlast]); [done|].
  rewrite Nat.add_0_r in Hlo, Hhi. rewrite Hlo, Hhi, Hlast.
  apply IH. intros j jn Hj.
  replace (S i + j)%nat with (i + S j)%nat by lia. by apply Hall.
Qed.


(* ===================================================================== *)
(** * Floats and clamping *)
(* ===================================================================== *)

Lemma Qltb_true x y : Qltb x y = true → (x < y)%Q.
Proof.
  unfold Qltb. intros H%negb_true_iff. apply Qnot_le_lt. intros Hle.
  apply Qle_bool_iff in Hle. congruence.
Qed.

Lemma Qltb_false x y : Qltb x y = false → (y <= x)%Q.
Proof. unfold Qltb. intros H%negb_false_iff. by apply Qle_bool_iff. Qed.

Lemma Qltb_ge x y : (y <= x)%Q → Qltb x y = false.
Proof. intros H. unfold Qltb. apply negb_false_iff. by apply Qle_bool_iff. Qed.

(** [a <= b] leaves no room for [b < a]. *)
Lemma float_le_not_lt a b : float_le a b = true → float_lt b a = false.
Proof.
  destruct a as [x| | |], b as [y| | |]; cbn; try done.
  intros H%Qle_bool_iff. by apply Qltb_ge.
Qed.

(** Without NaN the order is total. *)
Lemma float_lt_false a b : a ≠ NaN → b ≠ NaN → float_lt a b = false → float_le b a = true.
Proof.
  destruct a as [x| | |], b as [y| | |]; cbn; try done.
  intros _ _ H%Qltb_false. by apply Qle_bool_iff.
Qed.

Lemma float_le_not_nan_l a b : float_le a b = true → a ≠ NaN.
Proof. by destruct a, b. Qed.

Lemma float_le_not_nan_r a b : float_le a b = true → b ≠ NaN.
Proof. by destruct a, b. Qed.

(** [min(max(val, lo), hi)] lies within non-empty bounds, unless [val] is
    NaN. *)
Lemma py_clamp_bounds val lo hi :
  float_le lo hi = true → val ≠ NaN → in_range lo hi (py_min (py_max val lo) hi).
Proof.
  intros Hle Hval. unfold in_range, py_min, py_max.
  pose proof (float_le_not_nan_l _ _ Hle) as Hlo.
  pose proof (float_le_not_nan_r _ _ Hle) as Hhi.
  destruct (float_lt val lo) eqn:H1.
  - destruct (float_lt hi lo) eqn:H2.
    + by rewrite (float_le_not_lt _ _ Hle) in H2.
    + split; [|done]. by destruct lo as [x| | |]; cbn; rewrite ?Qle_bool_iff; try lra.
  - apply float_lt_false in H1; [|done..].
    destruct (float_lt hi val) eqn:H2.
    + split; [done|]. by destruct hi as [x| | |]; cbn; rewrite ?Qle_bool_iff; try lra.
    + split; [done|]. by apply float_lt_false in H2.
Qed.

(** A NaN passes through it. *)
Lemma py_clamp_nan lo hi : py_min (py_max NaN lo) hi = NaN.
Proof. unfold py_min, py_max. cbn. by destruct hi. Qed.

(** It leaves a value within the bounds as it is. *)
Lemma py_clamp_id val lo hi :
  in_range lo hi val → py_min (py_max val lo) hi = val.
Proof.
  intros [Hlo Hhi]. unfold py_min, py_max.
  rewrite (float_le_not_lt _ _ Hlo). by rewrite (float_le_not_lt _ _ Hhi).
Qed.

(** It moves no finite value away from a finite point within the bounds. *)
Lemma py_clamp_closer v p lo hi r :
  in_range lo hi (Finite p) → (Qabs (v - p) <= r)%Q →
  ∃ w, py_min (py_max (Finite v) lo) hi = Finite w ∧ (Qabs (w - p) <= r)%Q.
Proof.
  intros [Hlo Hhi] [H1 H2]%Qabs_Qle_condition. unfold py_min, py_max.
  destruct lo as [lo| | |]; try done; destruct hi as [hi| | |]; try done;
    cbn [float_le float_lt] in *.
  - apply Qle_bool_iff in Hlo, Hhi.
    destruct (Qltb v lo) eqn:H3; [apply Qltb_true in H3|apply Qltb_false in H3];
      cbn [float_lt];
      (destruct (Qltb hi _) eqn:H4; [apply Qltb_true in H4|apply Qltb_false in H4]);
      eexists; (split; [done|]); apply Qabs_Qle_condition; lra.
  - apply Qle_bool_iff in Hlo.
    destruct (Qltb v lo) eqn:H3; [apply Qltb_true in H3|apply Qltb_false in H3];
      cbn [float_lt];
      eexists; (split; [done|]); apply Qabs_Qle_condition; lra.
  - apply Qle_bool_iff in Hhi.
    destruct (Qltb hi v) eqn:H4; [apply Qltb_true in H4|apply Qltb_false in H4];
      eexists; (split; [done|]); apply Qabs_Qle_condition; lra.
  - eexists. split; [done|]. apply Qabs_Qle_condition. lra.
Qed.

(** The relative clamp of the design document brings every candidate, NaN
    and the infinities included, within a finite limit of a finite
    previous position. *)
Lemma clamp_relative_bound candidate p r :
  (0 <= r)%Q →
  ∃ v, clamp_relative candidate (Finite p) (Finite r) = Finite v ∧
       (Qabs (v - p) <= r)%Q.
Proof.
  intros Hr. unfold clamp_relative.
  destruct candidate as [c| | |];
    cbn [float_sub float_add float_opp float_abs float_le].
  - destruct (Qle_bool (Qabs (c + - p)) r) eqn:H1.
    + exists c. split; [done|]. apply Qle_bool_iff. exact H1.
    + destruct (Qle_bool p c); eexists; (split; [done|]);
        apply Qabs_Qle_condition; lra.
  - eexists. split; [done|]. apply Qabs_Qle_condition. lra.
  - eexists. split; [done|]. apply Qabs_Qle_condition. lra.
  - eexists. split; [done|]. apply Qabs_Qle_condition. lra.
Qed.

(** It holds every position where it is. *)
Lemma clamp_relative_hold p r :
  (0 <= r)%Q → clamp_relative p p (Finite r) = p.
Proof.
  intros Hr. unfold clamp_relative. destruct p as [p| | |];
    cbn [float_sub float_add float_opp float_abs float_le]; try done.
  replace (Qle_bool (Qabs (p + - p)) r) with true; [done|].
  symmetry. apply Qle_bool_iff, Qabs_Qle_condition. lra.
Qed.


(* ===================================================================== *)
(** * The goal of an action *)
(* ===================================================================== *)

Section GoalFacts.
Variable float_of_str : string → option pyfloat.

Local Abbreviation goal_from := (goal_from float_of_str).
Local Abbreviation extract_goal := (extract_goal float_of_str).
Local Abbreviation float_of := (float_of float_of_str).
Local Abbreviation floatable_action := (floatable_action float_of_str).

(** The goal of a joint is the float of the last item under the joint's
    key. *)
Lemma goal_from_lookup items acc goal_pos jn :
  goal_from items acc = Ok goal_pos →
  goal_pos !! jn = match py_get (pos_key jn) items with
                   | Some v => Some (float_of v)
                   | None => acc !! jn
                   end.
Proof.
  revert acc. induction items as [|[k v] items IH]; intros acc; cbn [goal_from py_get].
  - by intros [= <-].
  - destruct (endswith k ".pos") eqn:Hk.
    + unfold mbind, result_bind. destruct (py_float float_of_str v) as [x|] eqn:Hv; [|done].
      intros Hrest%IH. rewrite Hrest. destruct (py_get (pos_key jn) items); [done|].
      destruct (String.eqb_spec (pos_key jn) k) as [<-|Hne].
      * rewrite removesuffix_pos_key, lookup_insert_eq. unfold float_of. by rewrite Hv.
      * rewrite lookup_insert_ne; [done|]. intros <-. apply Hne.
        symmetry. by apply endswith_split.
    + intros Hrest%IH. rewrite Hrest. destruct (py_get (pos_key jn) items); [done|].
      destruct (String.eqb_spec (pos_key jn) k) as [<-|Hne]; [|done].
      by rewrite endswith_pos_key in Hk.
Qed.

Lemma goal_from_ok items acc :
  floatable_action items → ∃ goal_pos, goal_from items acc = Ok goal_pos.
Proof.
  revert acc. induction items as [|[k v] items IH]; intros acc Hfloat; cbn [goal_from].
  - by eexists.
  - assert (floatable_action items) as Hrest.
    { intros k' v' Hin. apply Hfloat. by right. }
    destruct (endswith k ".pos") eqn:Hk; [|by apply IH].
    destruct (Hfloat k v) as [x Hx]; [by left|done|].
    unfold mbind, result_bind. rewrite Hx. by apply IH.
Qed.

(** An action without a key "<joint>.pos" has the empty goal, whatever its
    values are. *)
Lemma goal_from_no_pos items acc :
  (∀ k v, (k, v) ∈ items → endswith k ".pos" = false) → goal_from items acc = Ok acc.
Proof.
  induction items as [|[k v] items IH]; intros Hnone; [done|]. cbn [goal_from].
  rewrite (Hnone k v) by by left. apply IH. intros k' v' Hin. apply (Hnone k' v'). by right.
Qed.

Lemma extract_goal_lookup action goal_pos jn :
  extract_goal action = Ok goal_pos →
  goal_pos !! jn = float_of <$> py_get (pos_key jn) action.
Proof.
  intros H. rewrite (goal_from_lookup _ _ _ jn H).
  by destruct (py_get (pos_key jn) action).
Qed.

End GoalFacts.

(* ===================================================================== *)
(** * send_action *)
(* ===================================================================== *)

Section SendActionFacts.
Variable float_of_str : string → option pyfloat.
Variable ensure_safe_goal_position :
  gmap string (pyfloat * pyfloat) → relative_target → result (gmap string pyfloat).
Variable config : SO101WebSimFollowerConfig.

Local Abbreviation send := (send_action float_of_str ensure_safe_goal_position config).
Local Abbreviation shape := (shaped_target float_of_str ensure_safe_goal_position config).
Local Abbreviation safety := (relative_safety ensure_safe_goal_position config).
Local Abbreviation extract_goal := (extract_goal float_of_str).
Local Abbreviation after_send := (after_send config).

Ltac step_in H :=
  cbn [value final emitted app negb _ws _seq _last_send_log _last_obs
       set_ws set_seq set_last_send_log set_obs] in H.

(** Runs [send_action] in [Hrun] up to the debug print, given the results
    [H0], [H1], [H2], [H3] of the shaping steps reached. *)
Ltac run_send_action g0 Hrun H0 H1 H2 H3 :=
  unfold send_action, _run, _async_send, is_connected in Hrun;
  unfold_prog; step_in Hrun;
  rewrite H0 in Hrun; step_in Hrun;
  try (destruct (bool_decide (g0 = ∅)); step_in Hrun;
       rewrite H1 in Hrun; step_in Hrun;
       try (rewrite H2 in Hrun; step_in Hrun; try (rewrite H3 in Hrun; step_in Hrun))).

(** The four shaping steps of a target. *)
Lemma shaped_target_steps self action target :
  shape self action = Ok target ↔
  ∃ g0 g1 g2,
    extract_goal action = Ok g0 ∧ safety self g0 = Ok g1 ∧
    absolute_clamp config self g1 = Ok g2 ∧
    map_result (goal_or_last g2 (_last_obs self)) (joint_names config) = Ok target.
Proof.
  unfold shaped_target, mbind, result_bind. split.
  - destruct (extract_goal action) as [g0|] eqn:H0; [|done].
    destruct (safety self g0) as [g1|] eqn:H1; [|done].
    destruct (absolute_clamp config self g1) as [g2|] eqn:H2; [|done].
    intros H3. by exists g0, g1, g2.
  - intros (g0 & g1 & g2 & -> & -> & -> & H3). done.
Qed.

(** Whatever the transport answers, [send_action] returns the target it has
    shaped, and has written it to the cache. *)
Lemma send_action_returns self action t_payload t_log answer target :
  shape self action = Ok target →
  let o := send action t_payload t_log answer self in
  value o = Ok (positions_dict (joint_names config) target) ∧
  _last_obs (final o) = after_send self target t_payload ∧
  _seq (final o) = S (_seq self).
Proof.
  intros (g0 & g1 & g2 & H0 & H1 & H2 & H3)%shaped_target_steps. cbv zeta.
  destruct (send action t_payload t_log answer self) as [fin out val] eqn:Hrun.
  run_send_action g0 Hrun H0 H1 H2 H3.
  all: destruct (Qltb 1 (t_log - _last_send_log self) || (S (_seq self) <? 5));
       step_in Hrun.
  all: destruct (_ws self); step_in Hrun.
  all: try (destruct answer as [[]|[]]; step_in Hrun).
  all: injection Hrun as <- <- <-.
  all: cbn [value final _last_obs _seq set_obs].
  all: rewrite optimistic_update_obs;
       rewrite (proj1 (proj2 (optimistic_update_frame _ _))); done.
Qed.

(** An exception of the shaping steps is the exception of [send_action];
    nothing is sent and the cache, the handle and the time of the last log
    line stay as they were. *)
Lemma send_action_raises_untouched self action t_payload t_log answer e :
  shape self action = Raise e →
  let o := send action t_payload t_log answer self in
  value o = Raise e ∧
  _last_obs (final o) = _last_obs self ∧ _ws (final o) = _ws self ∧
  _last_send_log (final o) = _last_send_log self ∧
  frames_sent (emitted o) = [].
Proof.
  unfold shaped_target, mbind, result_bind. cbv zeta.
  destruct (send action t_payload t_log answer self) as [fin out val] eqn:Hrun.
  destruct (extract_goal action) as [g0|] eqn:H0.
  - destruct (safety self g0) as [g1|] eqn:H1.
    + destruct (absolute_clamp config self g1) as [g2|] eqn:H2.
      * intros H3. run_send_action g0 Hrun H0 H1 H2 H3; by injection Hrun as <- <- <-.
      * intros [= <-]. run_send_action g0 Hrun H0 H1 H2 H2; by injection Hrun as <- <- <-.
    + intros [= <-]. run_send_action g0 Hrun H0 H1 H1 H1; by injection Hrun as <- <- <-.
  - intros [= <-]. run_send_action g0 Hrun H0 H0 H0 H0. by injection Hrun as <- <- <-.
Qed.

Lemma send_action_raises self action t_payload t_log answer e :
  shape self action = Raise e →
  value (send action t_payload t_log answer self) = Raise e.
Proof. intros H. by destruct (send_action_raises_untouched self action t_payload t_log answer e H). Qed.

(** An exception of the extraction, of the relative safety or of the
    absolute clamp comes before [self._seq += 1]: the follower is left as it
    was. *)
Lemma send_action_raises_early self action t_payload t_log answer e :
  (extract_goal action = Raise e ∨
   ∃ g0, extract_goal action = Ok g0 ∧
     (safety self g0 = Raise e ∨
      ∃ g1, safety self g0 = Ok g1 ∧ absolute_clamp config self g1 = Raise e)) →
  final (send action t_payload t_log answer self) = self ∧
  value (send action t_payload t_log answer self) = Raise e.
Proof.
  destruct (send action t_payload t_log answer self) as [fin out val] eqn:Hrun.
  intros [H0|(g0 & H0 & [H1|(g1 & H1 & H2)])].
  - run_send_action (∅ : gmap string pyfloat) Hrun H0 H0 H0 H0. by injection Hrun as <- <- <-.
  - run_send_action g0 Hrun H0 H1 H1 H1; by injection Hrun as <- <- <-.
  - run_send_action g0 Hrun H0 H1 H2 H2; by injection Hrun as <- <- <-.
Qed.

Lemma send_action_returns_inv self action t_payload t_log answer ret :
  value (send action t_payload t_log answer self) = Ok ret →
  ∃ target, shape self action = Ok target ∧
            ret = positions_dict (joint_names config) target.
Proof.
  intros Hret. destruct (shape self action) as [target|e] eqn:Hshape.
  - exists target. split; [done|].
    destruct (send_action_returns self action t_payload t_log answer target Hshape)
      as (Hval & _). rewrite Hval in Hret. by injection Hret.
  - by rewrite (send_action_raises _ _ _ _ _ e) in Hret.
Qed.

(** The warning about an empty goal comes first. *)
Lemma send_action_warns self action t_payload t_log answer :
  extract_goal action = Ok ∅ →
  head (emitted (send action t_payload t_log answer self)) = Some (Print warn_empty_goal).
Proof.
  intros Hempty. unfold send_action. rewrite run_bind. unfold lift at 1.
  rewrite Hempty. rewrite run_bind.
  rewrite bool_decide_eq_true_2 by done. cbn [emit].
  by destruct (_ ≫= _) as [? ? []].
Qed.

(** A failed send is reported and swallowed. *)
Lemma send_action_reports_failure self action t_payload t_log e target :
  shape self action = Ok target →
  is_Some (_ws self) → e ≠ TimeoutError →
  Print (send_failed e) ∈ emitted (send action t_payload t_log (Raise e) self).
Proof.
  intros (g0 & g1 & g2 & H0 & H1 & H2 & H3)%shaped_target_steps [w Hw] He.
  destruct (send action t_payload t_log (Raise e) self) as [fin out val] eqn:Hrun.
  run_send_action g0 Hrun H0 H1 H2 H3.
  all: destruct (Qltb 1 (t_log - _last_send_log self) || (S (_seq self) <? 5));
       step_in Hrun.
  all: rewrite Hw in Hrun; step_in Hrun.
  all: destruct e; try done; step_in Hrun; injection Hrun as <- <- <-; cbn [emitted].
  all: set_solver.
Qed.

Lemma send_action_reports_not_connected self action t_payload t_log answer target :
  shape self action = Ok target →
  _ws self = None →
  Print (send_failed (RuntimeError "websocket not connected"))
  ∈ emitted (send action t_payload t_log answer self).
Proof.
  intros (g0 & g1 & g2 & H0 & H1 & H2 & H3)%shaped_target_steps Hw.
  destruct (send action t_payload t_log answer self) as [fin out val] eqn:Hrun.
  run_send_action g0 Hrun H0 H1 H2 H3.
  all: destruct (Qltb 1 (t_log - _last_send_log self) || (S (_seq self) <? 5));
       step_in Hrun.
  all: rewrite Hw in Hrun; step_in Hrun; injection Hrun as <- <- <-; cbn [emitted].
  all: set_solver.
Qed.

(** The frame goes out once when there is a connection, and the handle is
    dropped when the transport reports the connection closed. *)
Lemma send_action_transport self action t_payload t_log answer target :
  shape self action = Ok target →
  let o := send action t_payload t_log answer self in
  frames_sent (emitted o) =
    (if is_connected self
     then [Payload "cmd" (S (_seq self)) "joint_position" (joint_names config)
                   target t_payload]
     else []) ∧
  _ws (final o) = match answer with
                  | Raise ConnectionClosed => None
                  | _ => _ws self
                  end.
Proof.
  intros (g0 & g1 & g2 & H0 & H1 & H2 & H3)%shaped_target_steps.
  cbv zeta. unfold is_connected.
  destruct (send action t_payload t_log answer self) as [fin out val] eqn:Hrun.
  run_send_action g0 Hrun H0 H1 H2 H3.
  all: destruct (Qltb 1 (t_log - _last_send_log self) || (S (_seq self) <? 5));
       step_in Hrun.
  all: destruct (_ws self) eqn:Hws; step_in Hrun.
  all: try (destruct answer as [[]|[]]; step_in Hrun).
  all: injection Hrun as <- <- <-.
  all: cbn [value final emitted _ws set_obs].
  all: split; [done|].
  all: rewrite (proj1 (optimistic_update_frame _ _));
       cbn [_ws set_ws set_seq set_last_send_log]; done.
Qed.

(** What the shaping steps compute, joint by joint. *)
Lemma shaped_target_inv self action target :
  shape self action = Ok target →
  ∃ g0 g1 g2,
    extract_goal action = Ok g0 ∧
    safety self g0 = Ok g1 ∧
    absolute_clamp config self g1 = Ok g2 ∧
    target = shaped_value g2 (_last_obs self) <$> joint_names config ∧
    ∀ jn, jn ∈ joint_names config → is_Some (_last_obs self !! pos_key jn).
Proof.
  intros (g0 & g1 & g2 & H0 & H1 & H2 & [-> Hobs]%target_ok_inv)%shaped_target_steps.
  by exists g0, g1, g2.
Qed.

Lemma after_send_lookup self (val : string → pyfloat) t_payload jn :
  jn ∈ joint_names config →
  after_send self (val <$> joint_names config) t_payload !! pos_key jn = Some (val jn).
Proof.
  intros Hjn. unfold after_send.
  rewrite lookup_insert_ne by (symmetry; apply pos_key_not_timestamp).
  rewrite zip_fmap_r.
  apply (foldl_insert_in (λ jv : string * pyfloat, pos_key jv.1) snd _ _ (jn, val jn)).
  - intros [a x] [b y] (a' & [= -> ->] & _)%list_elem_of_fmap
      (b' & [= -> ->] & _)%list_elem_of_fmap Hab. cbn in *.
    by apply (inj pos_key) in Hab as ->.
  - apply list_elem_of_fmap. by exists jn.
Qed.

(** C5.  When the frame has been built and the send fails (there is no
    connection, or the transport raises), [send_action] still returns: its
    value is the shaped target under the keys "<joint>.pos", the cache holds
    the same values, and the failure is printed. *)
Theorem send_action_survives_failed_send self action t_payload t_log answer target :
  shape self action = Ok target →
  (_ws self = None ∨ ∃ e, answer = Raise e) →
  let o := send action t_payload t_log answer self in
  let ret := positions_dict (joint_names config) target in
  value o = Ok ret ∧
  (∀ j jn, joint_names config !! j = Some jn →
     ∃ v, target !! j = Some v ∧ ret !! pos_key jn = Some v ∧
          _last_obs (final o) !! pos_key jn = Some v) ∧
  (_ws self = None →
     Print (send_failed (RuntimeError "websocket not connected")) ∈ emitted o) ∧
  (∀ e, is_Some (_ws self) → answer = Raise e → e ≠ TimeoutError →
     Print (send_failed e) ∈ emitted o).
Proof.
  intros Hshape Hfail. cbv zeta.
  destruct (send_action_returns self action t_payload t_log answer target Hshape)
    as (Hval & Hobs & _).
  destruct (shaped_target_inv self action target Hshape)
    as (g0 & g1 & g2 & _ & _ & _ & -> & _).
  split; [done|]. split; [|split].
  - intros j jn Hj. exists (shaped_value g2 (_last_obs self) jn).
    assert (jn ∈ joint_names config) as Hjn by by eapply list_elem_of_lookup_2.
    split; [by rewrite list_lookup_fmap, Hj|].
    split; [by apply positions_dict_lookup|].
    rewrite Hobs. by apply after_send_lookup.
  - intros Hws. by eapply send_action_reports_not_connected.
  - intros e Hws -> He. by eapply send_action_reports_failure.
Qed.

Lemma index_truthy {A} (l : option (list A)) i x : index l i = Ok x → truthy l = true.
Proof. intros (xs & -> & Hx)%index_Ok. by destruct xs. Qed.

(** What the returned dict holds for a joint, when the absolute clamp is
    active: the clamped value of some index at which the joint is listed. *)
Lemma send_action_clamped self action t_payload t_log answer ret jn :
  truthy (joint_min config) && truthy (joint_max config) = true →
  jn ∈ joint_names config →
  value (send action t_payload t_log answer self) = Ok ret →
  ∃ g0 g1 j lo hi last,
    extract_goal action = Ok g0 ∧
    safety self g0 = Ok g1 ∧
    joint_names config !! j = Some jn ∧
    index (joint_min config) j = Ok lo ∧ index (joint_max config) j = Ok hi ∧
    _last_obs self !! pos_key jn = Some last ∧
    ret !! pos_key jn = Some (py_min (py_max (default last (g1 !! jn)) lo) hi).
Proof.
  intros Hactive Hjn (target & Hshape & ->)%send_action_returns_inv.
  destruct (shaped_target_inv self action target Hshape)
    as (g0 & g1 & g2 & H0 & H1 & H2 & -> & _).
  unfold absolute_clamp in H2. rewrite Hactive in H2.
  apply clamp_from_inv in H2 as [Hin _].
  destruct (Hin jn Hjn) as (j & lo & hi & last & Hj & Hlo & Hhi & Hlast & Hg2).
  exists g0, g1, j, lo, hi, last. repeat split; try done.
  rewrite positions_dict_lookup by done. unfold shaped_value. by rewrite Hg2.
Qed.

(** The same when the clamp is skipped: the goal after the relative
    safety, or else the cached position. *)
Lemma send_action_unclamped self action t_payload t_log answer ret jn :
  truthy (joint_min config) && truthy (joint_max config) = false →
  jn ∈ joint_names config →
  value (send action t_payload t_log answer self) = Ok ret →
  ∃ g0 g1 last,
    extract_goal action = Ok g0 ∧
    safety self g0 = Ok g1 ∧
    _last_obs self !! pos_key jn = Some last ∧
    ret !! pos_key jn = Some (default last (g1 !! jn)).
Proof.
  intros Hskip Hjn (target & Hshape & ->)%send_action_returns_inv.
  destruct (shaped_target_inv self action target Hshape)
    as (g0 & g1 & g2 & H0 & H1 & H2 & -> & Hobs).
  unfold absolute_clamp in H2. rewrite Hskip in H2. injection H2 as <-.
  destruct (Hobs jn Hjn) as [last Hlast].
  exists g0, g1, last. repeat split; try done.
  rewrite positions_dict_lookup by done. unfold shaped_value. by rewrite Hlast.
Qed.

(** C8, as the code has it.  A joint with configured bounds [lo <= hi]
    (position [i] of [joint_min] and of [joint_max], the joint names
    distinct) leaves [send_action] within them unless the candidate that
    enters the clamp is NaN - the goal of the joint after the relative
    step, or the cached position when there is no goal.  [min] and [max]
    keep a NaN: then the value returned, sent and cached is NaN. *)
Theorem send_action_within_absolute_bounds
    self action t_payload t_log answer ret i jn lo hi :
  NoDup (joint_names config) →
  joint_names config !! i = Some jn →
  index (joint_min config) i = Ok lo →
  index (joint_max config) i = Ok hi →
  float_le lo hi = true →
  value (send action t_payload t_log answer self) = Ok ret →
  ∃ g0 g1 last v,
    extract_goal action = Ok g0 ∧
    safety self g0 = Ok g1 ∧
    _last_obs self !! pos_key jn = Some last ∧
    ret !! pos_key jn = Some v ∧
    (default last (g1 !! jn) ≠ NaN → in_range lo hi v) ∧
    (default last (g1 !! jn) = NaN → v = NaN).
Proof.
  intros Hnodup Hi Hlo Hhi Hle Hret.
  destruct (send_action_clamped self action t_payload t_log answer ret jn)
    as (g0 & g1 & j & lo' & hi' & last & H0 & H1 & Hj & Hlo' & Hhi' & Hlast & Hv);
    [| |done|].
  { by rewrite (index_truthy _ _ _ Hlo), (index_truthy _ _ _ Hhi). }
  { by eapply list_elem_of_lookup_2. }
  assert (j = i) as -> by by eapply NoDup_lookup.
  assert (lo' = lo) as -> by congruence.
  assert (hi' = hi) as -> by congruence.
  exists g0, g1, last. eexists.
  split; [done|]. split; [done|]. split; [done|]. split; [exact Hv|]. split.
  - intros Hval. by apply py_clamp_bounds.
  - intros ->. apply py_clamp_nan.
Qed.

End SendActionFacts.

(* ===================================================================== *)
(** * send_action with the relative clamp of the design document *)
(* ===================================================================== *)

Section ShaperFacts.
Variable float_of_str : string → option pyfloat.
Variable config : SO101WebSimFollowerConfig.

Local Abbreviation send :=
  (send_action float_of_str ensure_safe_goal_position_spec config).
Local Abbreviation shape :=
  (shaped_target float_of_str ensure_safe_goal_position_spec config).
Local Abbreviation safety := (relative_safety ensure_safe_goal_position_spec config).
Local Abbreviation extract_goal := (extract_goal float_of_str).
Local Abbreviation bounds_cover := (bounds_cover config).
Local Abbreviation within_bounds := (within_bounds config).
Local Abbreviation limits_nonnegative := (limits_nonnegative config).
Local Abbreviation cache_within_bounds := (cache_within_bounds config).

Lemma relative_safety_inv self goal_pos g1 :
  safety self goal_pos = Ok g1 →
  match max_relative_target config with
  | None => g1 = goal_pos
  | Some limit =>
      ∀ jn, jn ∈ joint_names config →
        ∃ p, _last_obs self !! pos_key jn = Some p ∧
             g1 !! jn = Some (match limit_of limit jn with
                              | Some r => clamp_relative (default p (goal_pos !! jn)) p r
                              | None => default p (goal_pos !! jn)
                              end)
  end.
Proof.
  unfold relative_safety. destruct (max_relative_target config) as [limit|]; [|congruence].
  unfold mbind, result_bind.
  destruct (goal_present_from _ _ _ _) as [gp|] eqn:Hgp; [|done].
  apply goal_present_from_inv in Hgp as [Hin _].
  unfold ensure_safe_goal_position_spec. intros [= <-] jn Hjn.
  destruct (Hin jn Hjn) as (p & Hp & Hgpjn). rewrite pos_entries_lookup in Hp.
  exists p. split; [done|]. by rewrite map_lookup_imap, Hgpjn.
Qed.

Lemma relative_safety_ok self goal_pos :
  obs_complete config self → ∃ g1, safety self goal_pos = Ok g1.
Proof.
  intros Hobs. unfold relative_safety.
  destruct (max_relative_target config) as [limit|]; [|by eexists].
  destruct (goal_present_from_ok goal_pos (pos_entries (_last_obs self))
              (joint_names config) ∅) as [gp ->].
  { intros jn Hjn. rewrite pos_entries_lookup. by apply Hobs. }
  by eexists.
Qed.

Lemma shaped_target_ok self action g0 :
  extract_goal action = Ok g0 →
  obs_complete config self → bounds_cover → ∃ target, shape self action = Ok target.
Proof.
  intros H0 Hobs Hcover. unfold shaped_target, mbind, result_bind. rewrite H0.
  destruct (relative_safety_ok self g0 Hobs) as [g1 ->].
  assert (∃ g2, absolute_clamp config self g1 = Ok g2) as [g2 ->].
  { unfold absolute_clamp.
    destruct (truthy (joint_min config) && truthy (joint_max config)) eqn:Hactive;
      [|by eexists].
    apply clamp_from_ok. intros j jn Hj.
    destruct (Hcover Hactive j jn Hj) as [Hlo Hhi]. repeat split; try done.
    apply Hobs. by eapply list_elem_of_lookup_2. }
  rewrite target_ok by done. by eexists.
Qed.

Lemma relative_bound_holds self action t_payload t_log answer ret limit jn r p :
  max_relative_target config = Some limit →
  limit_of limit jn = Some (Finite r) →
  (0 <= r)%Q →
  jn ∈ joint_names config →
  _last_obs self !! pos_key jn = Some (Finite p) →
  within_bounds jn (Finite p) →
  value (send action t_payload t_log answer self) = Ok ret →
  ∃ v, ret !! pos_key jn = Some (Finite v) ∧ (Qabs (v - p) <= r)%Q.
Proof.
  intros Hlimit Hr Hpos Hjn Hp Hbounds Hret.
  assert (∀ g0 g1, safety self g0 = Ok g1 →
            ∃ v1, g1 !! jn = Some (Finite v1) ∧ (Qabs (v1 - p) <= r)%Q) as Hstep.
  { intros g0 g1 H1. apply relative_safety_inv in H1. rewrite Hlimit in H1.
    destruct (H1 jn Hjn) as (p' & Hp' & Hg1). rewrite Hr in Hg1.
    assert (p' = Finite p) as -> by congruence.
    destruct (clamp_relative_bound (default (Finite p) (g0 !! jn)) p r Hpos)
      as (v1 & Hv1 & Hnear).
    exists v1. by rewrite Hg1, Hv1. }
  destruct (truthy (joint_min config) && truthy (joint_max config)) eqn:Hactive.
  - destruct (send_action_clamped _ _ config self action t_payload t_log answer ret jn
                Hactive Hjn Hret)
      as (g0 & g1 & j & lo & hi & last & H0 & H1 & Hj & Hlo & Hhi & Hlast & Hv).
    destruct (Hstep g0 g1 H1) as (v1 & Hg1 & Hnear).
    rewrite Hg1 in Hv. cbn [default from_option] in Hv. unfold id in Hv.
    destruct (py_clamp_closer v1 p lo hi r) as (w & Hw & Hwnear);
      [by eapply Hbounds|done|].
    exists w. by rewrite Hv, Hw.
  - destruct (send_action_unclamped _ _ config self action t_payload t_log answer ret jn
                Hactive Hjn Hret)
      as (g0 & g1 & last & H0 & H1 & Hlast & Hv).
    destruct (Hstep g0 g1 H1) as (v1 & Hg1 & Hnear).
    rewrite Hg1 in Hv. exists v1. by rewrite Hv.
Qed.


End ShaperFacts.

(* ===================================================================== *)
(** * send_action on concrete followers *)
(* ===================================================================== *)

(** C1, as the claim states it, fails when absolute bounds are configured
    too: the joint is at 0, the relative limit is 0.1 and the bounds are
    [1, 2]; the target 1.5 is first brought to 0.1 and then clamped to 1,
    a step of 1 from the previous position. *)
Lemma send_action_relative_bound_broken_by_clamp :
  max_relative_target config_a_range_relative = Some (for_all_joints (Finite (1 # 10))) ∧
  _last_obs (follower_with (Some (Socket 0)) (obs_a 0 0)) !! "a.pos" = Some (Finite 0) ∧
  value (send_action no_numeral ensure_safe_goal_position_spec config_a_range_relative
           [("a.pos", JFloat (Finite (3 # 2)))] 10 10 (Ok tt)
           (follower_with (Some (Socket 0)) (obs_a 0 0)))
  = Ok {[ "a.pos" := Finite 1 ]} ∧
  ¬ (Qabs (1 - 0) <= 1 # 10)%Q.
Proof.
  split; [done|]. split; [done|]. split; [by vm_compute|].
  intros H. by vm_compute in H.
Qed.

(** C1, as the code has it.  With a relative limit [r >= 0] defined for a
    joint whose previous position is [p], the value [send_action] returns
    for the joint is within [r] of [p] - provided the absolute clamp is off
    or [p] lies within the joint's bounds.  Scenario A: joints a and b at 0,
    limit 0.1 and target [{a: 1, b: -1}] give [{a: 0.1, b: -0.1}]. *)
Theorem send_action_relative_bound :
  (∀ float_of_str config self action t_payload t_log answer ret limit jn r p,
     max_relative_target config = Some limit →
     limit_of limit jn = Some (Finite r) →
     (0 <= r)%Q →
     jn ∈ joint_names config →
     _last_obs self !! pos_key jn = Some (Finite p) →
     within_bounds config jn (Finite p) →
     value (send_action float_of_str ensure_safe_goal_position_spec config
              action t_payload t_log answer self) = Ok ret →
     ∃ v, ret !! pos_key jn = Some (Finite v) ∧ (Qabs (v - p) <= r)%Q) ∧
  (∀ float_of_str ws t t_payload t_log answer,
     value (send_action float_of_str ensure_safe_goal_position_spec config_ab_relative
              [("a.pos", JFloat (Finite 1)); ("b.pos", JFloat (Finite (-1)))]
              t_payload t_log answer (follower_with ws (obs_ab 0 0 t)))
     = Ok (<["a.pos" := Finite (1 # 10)]> {[ "b.pos" := Finite (-1 # 10) ]})).
Proof.
  split.
  - intros. by eapply relative_bound_holds.
  - intros float_of_str ws t t_payload t_log answer.
    destruct (send_action_returns float_of_str ensure_safe_goal_position_spec
                config_ab_relative (follower_with ws (obs_ab 0 0 t))
                [("a.pos", JFloat (Finite 1)); ("b.pos", JFloat (Finite (-1)))]
                t_payload t_log answer [Finite (1 # 10); Finite (-1 # 10)]) as (-> & _).
    + by vm_compute.
    + by vm_compute.
Qed.

Lemma send_action_relative_bound_witness :
  ∃ v, ({[ "a.pos" := Finite (11 # 10) ]} : gmap string pyfloat) !! pos_key "a"
       = Some (Finite v) ∧
       (Qabs (v - 1) <= 1 # 10)%Q.
Proof.
  apply (proj1 send_action_relative_bound no_numeral config_a_range_relative
           (follower_with None (obs_a 1 0)) [("a.pos", JFloat (Finite 5))] 10%Q 10%Q (Ok tt)
           {[ "a.pos" := Finite (11 # 10) ]} (for_all_joints (Finite (1 # 10))) "a"
           (1 # 10) 1%Q).
  - reflexivity.
  - reflexivity.
  - by vm_compute.
  - by left.
  - reflexivity.
  - intros _ [|[|j]] lo hi Hj [= <-] [= <-]; [|done..]. by vm_compute.
  - by vm_compute.
Defined.



Lemma send_action_survives_failed_send_witness :
  value (send_action no_numeral ensure_safe_goal_position_spec config_ab
           [("a.pos", JFloat (Finite 1))]
           10 10 (Raise ConnectionClosed) (follower_with (Some (Socket 0)) (obs_ab 0 0 0)))
  = Ok (positions_dict ["a"; "b"] [Finite 1; Finite 0]).
Proof.
  refine (proj1 (send_action_survives_failed_send no_numeral
                   ensure_safe_goal_position_spec config_ab
                   (follower_with (Some (Socket 0)) (obs_ab 0 0 0))
                   [("a.pos", JFloat (Finite 1))]
                   10 10 (Raise ConnectionClosed) [Finite 1; Finite 0] _ _)).
  - by vm_compute.
  - right. by eexists.
Defined.

(** C8, as the claim states it, fails for an action that carries a NaN
    ([float("nan")], or the string "nan"): with the bounds [1, 2],
    [max(nan, 1)] is NaN and [min(nan, 2)] is NaN, so [send_action] returns
    (and sends and caches) NaN, which is not within [1, 2]. *)
Lemma send_action_returns_nan_despite_bounds :
  index (joint_min config_a_range) 0 = Ok (Finite 1) ∧
  index (joint_max config_a_range) 0 = Ok (Finite 2) ∧
  value (send_action no_numeral ensure_safe_goal_position_spec config_a_range
           [("a.pos", JFloat NaN)] 10 10 (Ok tt) (init config_a_range 0))
  = Ok {[ "a.pos" := NaN ]} ∧
  ¬ in_range (Finite 1) (Finite 2) NaN.
Proof.
  split; [done|]. split; [done|]. split; [by vm_compute|]. by intros [H _].
Qed.

Lemma send_action_within_absolute_bounds_witness :
  ∃ g0 g1 last v,
    extract_goal no_numeral [("a.pos", JFloat (Finite 5))] = Ok g0 ∧
    relative_safety ensure_safe_goal_position_spec config_a_range (init config_a_range 0) g0
    = Ok g1 ∧
    _last_obs (init config_a_range 0) !! pos_key "a" = Some last ∧
    ({[ "a.pos" := Finite 2 ]} : gmap string pyfloat) !! pos_key "a" = Some v ∧
    (default last (g1 !! "a") ≠ NaN → in_range (Finite 1) (Finite 2) v) ∧
    (default last (g1 !! "a") = NaN → v = NaN).
Proof.
  apply (send_action_within_absolute_bounds no_numeral ensure_safe_goal_position_spec
           config_a_range (init config_a_range 0) [("a.pos", JFloat (Finite 5))]
           10 10 (Ok tt) {[ "a.pos" := Finite 2 ]} 0 "a" (Finite 1) (Finite 2)).
  - apply NoDup_singleton.
  - reflexivity.
  - reflexivity.
  - reflexivity.
  - reflexivity.
  - by vm_compute.
Defined.

(* ===================================================================== *)
(** * get_observation *)
(* ===================================================================== *)

(** A wait of zero seconds ends before the coroutine takes its first step:
    [_run] returns [None] and nothing of the coroutine has happened. *)
Lemma run_zero_timeout {A} (coro : prog SO101WebSimFollower event A) self :
  _run coro (Some 0%Q) self = Outcome self [Await (Some 0%Q)] (Ok None).
Proof. done. Qed.

Section GetObservationFacts.
Variable float_of_str : string → option pyfloat.
Variable str_of_scalar : json → string.
Variable config : SO101WebSimFollowerConfig.

Local Abbreviation observe := (get_observation float_of_str str_of_scalar config).

(** [get_observation] asks [_run] for a wait of zero seconds (line 67), so
    [_async_try_recv] is never started: whatever the transport holds, the
    follower is left as it was and the cache comes back as it is. *)
Lemma get_observation_run answer now self :
  observe answer now self = Outcome self [Await (Some 0%Q)] (Ok (_last_obs self)).
Proof. done. Qed.

(** C2.  A state frame that carries names and a number of positions other
    than the number of names modifies no cached joint position, and no
    exception reaches the caller: [get_observation] returns the cache as it
    was and leaves the follower as it was.  (The frame is not decoded: the
    receive of line 67 has ended before the frame is taken.) *)
Theorem get_observation_keeps_cache_on_mismatched_frame
    self now members names joint_pos n m :
  py_get "type" members = Some (JStr "state") →
  py_get "names" members = Some names →
  py_get "joint_pos" members = Some joint_pos →
  py_len names = Ok n →
  py_len joint_pos = Ok m →
  n ≠ m →
  value (get_observation float_of_str str_of_scalar config
           (Ok (Decodes (JObj members))) now self) = Ok (_last_obs self) ∧
  ∀ jn, jn ∈ joint_names config →
    _last_obs (final (get_observation float_of_str str_of_scalar config
                        (Ok (Decodes (JObj members))) now self)) !! pos_key jn
    = _last_obs self !! pos_key jn.
Proof. intros _ _ _ _ _ _. by rewrite get_observation_run. Qed.

End GetObservationFacts.

Lemma get_observation_keeps_cache_on_mismatched_frame_witness :
  value (get_observation no_numeral no_scalar_name config_ab
           (Ok (Decodes (JObj frame_short_positions))) 5
           (follower_with (Some (Socket 0)) (obs_ab 0 0 0))) = Ok (obs_ab 0 0 0) ∧
  ∀ jn, jn ∈ ["a"; "b"] →
    _last_obs (final (get_observation no_numeral no_scalar_name config_ab
                        (Ok (Decodes (JObj frame_short_positions))) 5
                        (follower_with (Some (Socket 0)) (obs_ab 0 0 0)))) !! pos_key jn
    = obs_ab 0 0 0 !! pos_key jn.
Proof.
  apply (get_observation_keeps_cache_on_mismatched_frame no_numeral no_scalar_name
           config_ab (follower_with (Some (Socket 0)) (obs_ab 0 0 0)) 5
           frame_short_positions (JArr [JStr "a"; JStr "b"]) (JArr (floats [1 # 2]%Q))
           2 1).
  - reflexivity.
  - reflexivity.
  - reflexivity.
  - reflexivity.
  - reflexivity.
  - lia.
Defined.

(** The statements of the [try] of [get_observation] themselves check no
    length: run on the frame
    [{"type": "state", "names": ["a", "b"], "joint_pos": [0.5]}] they pair
    the names with the positions as far as both go and write a.pos. *)
Lemma merge_frame_pairs_mismatched_frame float_of_str str_of_scalar ws now :
  merge_frame float_of_str str_of_scalar config_ab
    (Decodes (JObj frame_short_positions)) now (follower_with ws (obs_ab 0 0 0))
  = Outcome (follower_with ws (obs_ab (1 # 2) 0 now)) [] (Ok tt).
Proof. by vm_compute. Qed.

(** C7, on the code.  Scenario C: the joints are [a, b], the cache holds
    [{a: 0, b: 0}] and the frame [{"type": "state", "joint_pos": [0.2, 0.3]}]
    is waiting.  [get_observation] returns the cache as it was and leaves
    the follower as it was: the wait of zero seconds of line 67 ends the
    receive before the frame is taken.  The statements of the [try], run on
    this frame, do what the claim says: the cache becomes
    [{a: 0.2, b: 0.3}] with the local time as its timestamp. *)
Theorem get_observation_misses_aligned_frame float_of_str str_of_scalar ws now :
  get_observation float_of_str str_of_scalar config_ab
    (Ok (Decodes (JObj frame_positions))) now (follower_with ws (obs_ab 0 0 0))
  = Outcome (follower_with ws (obs_ab 0 0 0)) [Await (Some 0%Q)] (Ok (obs_ab 0 0 0)) ∧
  merge_frame float_of_str str_of_scalar config_ab
    (Decodes (JObj frame_positions)) now (follower_with ws (obs_ab 0 0 0))
  = Outcome (follower_with ws (obs_ab (1 # 5) (3 # 10) now)) [] (Ok tt).
Proof. split; [done|by vm_compute]. Qed.

(** C10, on the code.  The frame [{"type": "state", "timestamp": 99}] is
    waiting for a follower whose cache holds the timestamp 0.
    [get_observation] returns the cache as it was, timestamp 0 included:
    the wait of zero seconds of line 67 ends the receive before the frame
    is taken.  The statements of the [try], run on this frame, do what the
    claim says: the positions stay and the timestamp becomes 99. *)
Theorem get_observation_misses_timestamp float_of_str str_of_scalar ws now :
  get_observation float_of_str str_of_scalar config_ab
    (Ok (Decodes (JObj frame_timestamp_only))) now (follower_with ws (obs_ab 0 0 0))
  = Outcome (follower_with ws (obs_ab 0 0 0)) [Await (Some 0%Q)] (Ok (obs_ab 0 0 0)) ∧
  merge_frame float_of_str str_of_scalar config_ab
    (Decodes (JObj frame_timestamp_only)) now (follower_with ws (obs_ab 0 0 0))
  = Outcome (follower_with ws (obs_ab 0 0 99)) [] (Ok tt).
Proof. split; [done|by vm_compute]. Qed.

(* ===================================================================== *)
(** * The cache always has every configured joint *)
(* ===================================================================== *)

Lemma init_complete config now : obs_complete config (init config now).
Proof.
  intros jn Hjn. cbn. rewrite lookup_insert_ne by (symmetry; apply pos_key_not_timestamp).
  unfold zero_positions.
  by rewrite (foldl_insert_in pos_key (λ _, Finite 0) (joint_names config) ∅ jn).
Qed.

Lemma send_action_keeps_complete float_of_str helper config self action t_payload t_log
    answer target :
  shaped_target float_of_str helper config self action = Ok target →
  obs_complete config
    (final (send_action float_of_str helper config action t_payload t_log answer self)).
Proof.
  intros Hshape jn Hjn.
  destruct (send_action_returns float_of_str helper config self action t_payload t_log
              answer target Hshape) as (_ & -> & _).
  destruct (shaped_target_inv float_of_str helper config self action target Hshape)
    as (g0 & g1 & g2 & _ & _ & _ & -> & _).
  by rewrite after_send_lookup.
Qed.

Lemma get_observation_keeps_complete float_of_str str_of_scalar config answer now self :
  obs_complete config self →
  obs_complete config
    (final (get_observation float_of_str str_of_scalar config answer now self)).
Proof. by rewrite get_observation_run. Qed.

(** * More about the endpoint: rx_loop and tx_loop *)
(* ===================================================================== *)

Lemma rx_body_cases msg q :
  final (rx_body msg q) = q ∨
  length (final (rx_body msg q)) = length JOINT_NAMES.
Proof.
  unfold rx_body. destruct msg as [| |d]; cbn; [by left..|].
  unfold_prog. destruct d as [| | | | | |members]; cbn; try by left.
  destruct (eq_str (default JNull (py_get "type" members)) "cmd"); cbn; [|by left].
  destruct (eq_str (default JNull (py_get "mode" members)) "joint_position"); cbn;
    [|by left].
  destruct (default (JArr []) (py_get "target" members)) as [| | | | |tgt|]; cbn;
    try by left.
  destruct (Nat.eqb_spec (length tgt) 6) as [Hlen|]; cbn; [|by left].
  right. by destruct (map_result format_f (take 6 tgt)).
Qed.

(** X1.  [rx_loop] keeps [len(q) == len(JOINT_NAMES)]: whatever arrives,
    also when the loop ends with an exception, [q] has six entries. *)
Theorem rx_loop_keeps_length (msgs : list message) (q : list json) :
  length q = length JOINT_NAMES →
  length (final (rx_loop msgs q)) = length JOINT_NAMES.
Proof.
  revert q. induction msgs as [|msg msgs IH]; intros q Hq; [done|].
  cbn [rx_loop]. rewrite run_bind.
  assert (length (final (rx_body msg q)) = length JOINT_NAMES) as Hbody.
  { destruct (rx_body_cases msg q) as [->|]; done. }
  destruct (rx_body msg q) as [q1 out1 [[]|e]]; cbn in *; [|done].
  specialize (IH q1 Hbody). by destruct (rx_loop msgs q1).
Qed.

Lemma rx_loop_keeps_length_witness :
  length (final (rx_loop [Decodes (JObj example_good_frame); Decodes (JInt 3); Malformed]
                   q_init)) = 6%nat.
Proof. apply (rx_loop_keeps_length _ q_init). reflexivity. Defined.

Lemma rx_body_skips msg q :
  rx_reads msg None → ∃ l, rx_body msg q = Outcome q [l] (Ok tt).
Proof.
  intros [->|[->|(members & -> & Hbad)]]; [by eexists..|].
  by apply rx_body_defective.
Qed.

(** X2.  Over messages that are each skipped or valid numeric commands,
    [rx_loop] runs to the end, prints one line per message, and leaves in
    [q] the target of the last valid command (its old value when there was
    none): an invalid frame does not disturb the commands around it. *)
Theorem rx_loop_applies_last_command msgs applied (q : list json) :
  Forall2 rx_reads msgs applied →
  final (rx_loop msgs q) = last_applied q applied ∧
  value (rx_loop msgs q) = Ok tt ∧
  length (emitted (rx_loop msgs q)) = length msgs.
Proof.
  intros Hreads. revert q.
  induction Hreads as [|msg a msgs applied Hmsg _ IH]; intros q; [done|].
  cbn [rx_loop last_applied foldl]. rewrite run_bind.
  destruct a as [tgt|].
  - destruct Hmsg as (members & vs & -> & Hvalid & Hvs).
    rewrite (rx_body_valid_numbers members tgt q vs Hvalid Hvs).
    destruct (IH tgt) as (Hq & Hv & Hout).
    destruct (rx_loop msgs tgt) as [q' out' v']; cbn in *.
    unfold last_applied in Hq. by rewrite Hq, Hv, Hout.
  - destruct (rx_body_skips msg q Hmsg) as [l ->].
    destruct (IH q) as (Hq & Hv & Hout).
    destruct (rx_loop msgs q) as [q' out' v']; cbn in *.
    unfold last_applied in Hq. by rewrite Hq, Hv, Hout.
Qed.

Lemma rx_loop_applies_last_command_witness :
  final (rx_loop [Decodes (JObj example_good_frame); Malformed;
                  Decodes (JObj example_bad_frame)] q_init)
  = (floats [1; 2; 3; 4; 5; 6]%Q) ∧
  value (rx_loop [Decodes (JObj example_good_frame); Malformed;
                  Decodes (JObj example_bad_frame)] q_init) = Ok tt ∧
  length (emitted (rx_loop [Decodes (JObj example_good_frame); Malformed;
                            Decodes (JObj example_bad_frame)] q_init)) = 3%nat.
Proof.
  apply (rx_loop_applies_last_command
           [Decodes (JObj example_good_frame); Malformed; Decodes (JObj example_bad_frame)]
           [Some (floats [1; 2; 3; 4; 5; 6]%Q); None; None]
           q_init).
  constructor; [|constructor; [|constructor; [|constructor]]].
  - exists example_good_frame, (Finite <$> [1; 2; 3; 4; 5; 6]%Q). repeat split.
  - right; left. reflexivity.
  - right; right. exists example_bad_frame. split; [reflexivity|].
    right; right. exists 1%nat. split; [reflexivity|]. cbn. lia.
Defined.

(** X3.  A frame that is valid JSON but no object ends [rx_loop]: [d.get]
    raises [AttributeError] outside the [try], nothing is printed, [q] keeps
    its value and the messages behind the frame are never read. *)
Theorem rx_loop_ends_on_non_object d rest (q : list json) :
  not_a_dict d →
  rx_loop (Decodes d :: rest) q = Outcome q [] (Raise AttributeError).
Proof.
  intros Hd. cbn [rx_loop]. rewrite run_bind. by destruct d.
Qed.

Lemma rx_loop_ends_on_non_object_witness :
  rx_loop [Decodes (JArr [JInt 1]); Decodes (JObj example_good_frame)] q_init
  = Outcome q_init [] (Raise AttributeError).
Proof. by apply (rx_loop_ends_on_non_object (JArr [JInt 1])). Defined.

(** X4.  A command whose target has no length (a number, a bool, null)
    ends [rx_loop] too: the rejection prints [len(tgt)], which raises
    [TypeError].  [q] keeps its value and later commands are lost. *)
Theorem rx_loop_ends_on_unsized_target members tgt rest (q : list json) :
  py_get "type" members = Some (JStr "cmd") →
  py_get "mode" members = Some (JStr "joint_position") →
  py_get "target" members = Some tgt →
  py_len tgt = Raise TypeError →
  rx_loop (Decodes (JObj members) :: rest) q = Outcome q [] (Raise TypeError).
Proof.
  intros Ht Hm Htgt Hlen. cbn [rx_loop]. rewrite run_bind.
  by rewrite (rx_body_unsized_target members tgt q Ht Hm Htgt Hlen).
Qed.

Lemma rx_loop_ends_on_unsized_target_witness :
  rx_loop [Decodes (JObj [("type", JStr "cmd"); ("mode", JStr "joint_position");
                          ("target", JNull)]);
           Decodes (JObj example_good_frame)] q_init
  = Outcome q_init [] (Raise TypeError).
Proof.
  by apply (rx_loop_ends_on_unsized_target
              [("type", JStr "cmd"); ("mode", JStr "joint_position"); ("target", JNull)]
              JNull).
Defined.

(** X5.  A command of the right shape is applied before its values are
    looked at: when one of the six is no number, [q] is already replaced
    (non-number included) when the log line raises and ends [rx_loop]. *)
Theorem rx_loop_applies_then_fails_on_non_number members tgt e rest (q : list json) :
  valid_cmd members tgt →
  map_result format_f tgt = Raise e →
  rx_loop (Decodes (JObj members) :: rest) q = Outcome tgt [] (Raise e).
Proof.
  intros (Ht & Hm & Htgt & Hlen) Hfmt. cbn [rx_loop]. rewrite run_bind.
  unfold rx_body. cbn. unfold_prog. cbn. rewrite Ht, Hm, Htgt. cbn.
  rewrite Hlen. cbn.
  rewrite firstn_all2 by (rewrite Hlen; cbn; lia). by rewrite Hfmt.
Qed.

Lemma rx_loop_applies_then_fails_on_non_number_witness :
  rx_loop [Decodes (JObj [("type", JStr "cmd"); ("mode", JStr "joint_position");
                          ("target", JArr (floats [1; 2]%Q ++ JStr "x" :: floats [4; 5; 6]%Q))]);
           Decodes (JObj example_good_frame)] q_init
  = Outcome (floats [1; 2]%Q ++ JStr "x" :: floats [4; 5; 6]%Q) []
            (Raise ValueError).
Proof.
  apply (rx_loop_applies_then_fails_on_non_number
           [("type", JStr "cmd"); ("mode", JStr "joint_position");
            ("target", JArr (floats [1; 2]%Q ++ JStr "x" :: floats [4; 5; 6]%Q))]).
  - repeat split.
  - reflexivity.
Defined.

Lemma tx_loop_ok_ticks before rest (q : list json) :
  Forall (λ tick : Q * result unit, tick.2 = Ok tt) before →
  tx_loop (before ++ rest) q =
  Outcome (final (tx_loop rest q))
          (flat_map (published q) before ++ emitted (tx_loop rest q))
          (value (tx_loop rest q)).
Proof.
  induction 1 as [|[now answer] before Hok _ IH].
  - cbn [app flat_map]. by destruct (tx_loop rest q).
  - cbn in Hok. subst answer. cbn [app tx_loop flat_map]. unfold_prog.
    rewrite IH. reflexivity.
Qed.

(** X6.  [tx_loop] publishes one state frame per tick and sleeps 1/60 s
    after each send that succeeds; it never writes [q].  A send that raises
    [ConnectionClosed] ends the loop normally, any other exception leaves
    it; in both cases the frame of that tick is the last thing done and the
    later ticks do not happen. *)
Theorem tx_loop_runs_until_send_fails before (q : list json) :
  Forall (λ tick : Q * result unit, tick.2 = Ok tt) before →
  tx_loop before q = Outcome q (flat_map (published q) before) (Ok still_running) ∧
  ∀ now e rest,
    tx_loop (before ++ (now, Raise e) :: rest) q =
    Outcome q (flat_map (published q) before ++ [publish (state_message q now)]) (tx_end e).
Proof.
  intros Hok. split.
  - rewrite <- (app_nil_r before) at 1. rewrite (tx_loop_ok_ticks _ _ _ Hok).
    cbn. by rewrite app_nil_r.
  - intros now e rest. rewrite (tx_loop_ok_ticks _ _ _ Hok).
    cbn [tx_loop]. unfold_prog. by destruct e.
Qed.

Lemma tx_loop_runs_until_send_fails_witness :
  tx_loop [(1, Ok tt); (2, Ok tt)]%Q q_init =
  Outcome q_init [publish (state_message q_init 1); nap (1 # 60);
                  publish (state_message q_init 2); nap (1 # 60)] (Ok still_running) ∧
  tx_loop [(1, Ok tt); (2, Ok tt); (3, Raise ConnectionClosed); (4, Ok tt)]%Q q_init =
  Outcome q_init [publish (state_message q_init 1); nap (1 # 60);
                  publish (state_message q_init 2); nap (1 # 60);
                  publish (state_message q_init 3)] (Ok returned).
Proof.
  destruct (tx_loop_runs_until_send_fails [(1, Ok tt); (2, Ok tt)]%Q q_init) as [H1 H2].
  - by repeat constructor.
  - split; [exact H1|]. exact (H2 3%Q ConnectionClosed [(4%Q, Ok tt)]).
Defined.

(* ===================================================================== *)

(** X26.  An object frame whose type is not "cmd", whose mode is not
    "joint_position" or whose target has a length other than six is
    skipped by [rx_body]: one line is printed and [q] keeps its value.  A
    well-formed command that follows is applied: [q] becomes its target. *)
Theorem rx_loop_skips_defective_object (q : list json) bad good tgt :
  defective_cmd bad →
  valid_cmd good tgt →
  (∃ l, rx_body (Decodes (JObj bad)) q = Outcome q [l] (Ok tt)) ∧
  final (rx_loop [Decodes (JObj bad); Decodes (JObj good)] q) = tgt.
Proof.
  intros Hbad Hgood.
  destruct (rx_body_defective bad q Hbad) as [l Hl].
  split; [by exists l|].
  pose proof (rx_body_valid good tgt q Hgood) as Hfin.
  cbn [rx_loop]. rewrite run_bind, Hl, run_bind.
  by destruct (rx_body (Decodes (JObj good)) q) as [s1 out1 [[]|e]].
Qed.

Lemma rx_loop_skips_defective_object_witness :
  (∃ l, rx_body (Decodes (JObj example_bad_frame)) q_init = Outcome q_init [l] (Ok tt)) ∧
  final (rx_loop [Decodes (JObj example_bad_frame); Decodes (JObj example_good_frame)] q_init)
  = floats [1; 2; 3; 4; 5; 6]%Q.
Proof.
  apply (rx_loop_skips_defective_object q_init example_bad_frame example_good_frame).
  - right; right. exists 1%nat. split; [reflexivity|]. cbn. lia.
  - repeat split.
Defined.

(* ===================================================================== *)
(* ===================================================================== *)
(** * More about the follower: the feature dicts and the cache *)
(* ===================================================================== *)

Lemma dom_foldl_insert {A V} (key : A → string) (val : A → V) (l : list A)
    (acc : gmap string V) :
  dom (foldl (λ d x, <[key x := val x]> d) acc l) = list_to_set (key <$> l) ∪ dom acc.
Proof.
  revert acc. induction l as [|x l IH]; intros acc; cbn.
  - by rewrite union_empty_l_L.
  - rewrite IH, dom_insert_L, !(assoc_L (∪)). f_equal. apply (comm_L (∪)).
Qed.

Lemma dom_action_features config :
  dom (action_features config) = list_to_set (pos_key <$> joint_names config).
Proof.
  unfold action_features.
  by rewrite (dom_foldl_insert pos_key (λ _, float_feature)), dom_empty_L, union_empty_r_L.
Qed.

Lemma dom_observation_features config :
  dom (observation_features config)
  = {[ "timestamp" ]} ∪ list_to_set (pos_key <$> joint_names config).
Proof. unfold observation_features. by rewrite dom_insert_L, dom_action_features. Qed.

Lemma dom_init config now :
  dom (_last_obs (init config now)) = dom (observation_features config).
Proof.
  rewrite dom_observation_features. cbn. rewrite dom_insert_L. unfold zero_positions.
  by rewrite (dom_foldl_insert pos_key (λ _, Finite 0)), dom_empty_L, union_empty_r_L.
Qed.

(** X7.  A new follower's cache has exactly the keys that
    [observation_features] declares: every configured joint at 0.0 and the
    time of construction under "timestamp". *)
Theorem init_matches_observation_features config now :
  dom (_last_obs (init config now)) = dom (observation_features config) ∧
  (∀ jn, jn ∈ joint_names config → _last_obs (init config now) !! pos_key jn = Some (Finite 0)) ∧
  _last_obs (init config now) !! "timestamp" = Some (Finite now).
Proof.
  split; [apply dom_init|split].
  - intros jn Hjn. cbn.
    rewrite lookup_insert_ne by (symmetry; apply pos_key_not_timestamp).
    unfold zero_positions.
    by rewrite (foldl_insert_in pos_key (λ _, Finite 0) (joint_names config) ∅ jn).
  - cbn. by rewrite lookup_insert_eq.
Qed.

Lemma dom_positions_dict config (val : string → pyfloat) :
  dom (positions_dict (joint_names config) (val <$> joint_names config))
  = dom (action_features config).
Proof.
  unfold positions_dict. rewrite zip_fmap_r, dom_action_features.
  rewrite (dom_foldl_insert (λ jv : string * pyfloat, pos_key jv.1) snd).
  by rewrite <- list_fmap_compose, dom_empty_L, union_empty_r_L.
Qed.

Lemma dom_after_send config self (val : string → pyfloat) t_payload :
  dom (after_send config self (val <$> joint_names config) t_payload)
  = dom (observation_features config) ∪ dom (_last_obs self).
Proof.
  unfold after_send. rewrite zip_fmap_r, dom_insert_L, dom_observation_features.
  rewrite (dom_foldl_insert (λ jv : string * pyfloat, pos_key jv.1) snd).
  by rewrite <- list_fmap_compose, (assoc_L (∪)).
Qed.

Section CacheFacts.
Variable float_of_str : string → option pyfloat.
Variable helper : gmap string (pyfloat * pyfloat) → relative_target
                  → result (gmap string pyfloat).
Variable config : SO101WebSimFollowerConfig.

Local Abbreviation send := (send_action float_of_str helper config).
Local Abbreviation shape := (shaped_target float_of_str helper config).

(** X8.  [send_action] keeps the keys of the cache, also when it
    raises, and the dict it returns has exactly the keys of
    [action_features]: one position for every configured joint and no
    timestamp. *)
Theorem send_action_keeps_features action t_payload t_log answer self :
  dom (_last_obs self) = dom (observation_features config) →
  dom (_last_obs (final (send_action float_of_str helper config
                           action t_payload t_log answer self)))
  = dom (observation_features config) ∧
  ∀ ret, value (send_action float_of_str helper config action t_payload t_log answer self)
         = Ok ret →
         dom ret = dom (action_features config).
Proof.
  intros Hdom. destruct (shape self action) as [target|e] eqn:Hshape.
  - destruct (send_action_returns float_of_str helper config self action t_payload t_log
                answer target Hshape) as (-> & -> & _).
    destruct (shaped_target_inv float_of_str helper config self action target Hshape)
      as (g0 & g1 & g2 & _ & _ & _ & -> & _).
    split.
    + rewrite dom_after_send, Hdom. apply union_idemp_L.
    + intros ret [= <-]. apply dom_positions_dict.
  - destruct (send_action_raises_untouched float_of_str helper config self action
                t_payload t_log answer e Hshape) as (Hv & -> & _).
    split; [done|]. by rewrite Hv.
Qed.

End CacheFacts.

Lemma send_action_keeps_features_witness :
  dom (_last_obs (final (send_action no_numeral ensure_safe_goal_position_spec
                           default_config [("gripper.pos", JFloat (Finite 1))]
                           10 10 (Ok tt) (init default_config 0))))
  = dom (observation_features default_config) ∧
  ∀ ret, value (send_action no_numeral ensure_safe_goal_position_spec default_config
                  [("gripper.pos", JFloat (Finite 1))] 10 10 (Ok tt)
                  (init default_config 0)) = Ok ret →
         dom ret = dom (action_features default_config).
Proof.
  apply (send_action_keeps_features no_numeral ensure_safe_goal_position_spec
           default_config).
  apply (dom_init default_config 0).
Defined.

(* ===================================================================== *)
(** * More about the follower: connect and disconnect *)
(* ===================================================================== *)

Lemma connect_exhausts_budget_witness :
  final (connect default_config (λ _, Raise OSError) (init default_config 0))
  = init default_config 0 ∧
  value (connect default_config (λ _, Raise OSError) (init default_config 0))
  = Raise (RuntimeError "websim follower: cannot connect to simulator") ∧
  attempts_made (emitted (connect default_config (λ _, Raise OSError) (init default_config 0)))
  = 10%nat.
Proof.
  apply (connect_exhausts_budget default_config (λ _, Raise OSError) (init default_config 0)).
  - reflexivity.
  - intros k _. by exists OSError.
Defined.

Lemma set_ws_back w self : _ws self = None → set_ws None (set_ws (Some w) self) = self.
Proof. destruct self as [ws seq t obs]. cbn. by intros ->. Qed.

(** X10.  [disconnect] forgets the handle whatever [close] does: the
    [finally] clears it also when [close] raises.  An exception of [close]
    reaches the caller, except a timeout, which [_run] swallows; the line
    "disconnected" is printed exactly when [disconnect] returns. *)
Theorem disconnect_clears_handle answer self :
  is_Some (_ws self) →
  final (disconnect answer self) = set_ws None self ∧
  value (disconnect answer self) =
    match answer with
    | Ok _ | Raise TimeoutError => Ok tt
    | Raise e => Raise e
    end ∧
  (Print disconnected ∈ emitted (disconnect answer self) ↔
   value (disconnect answer self) = Ok tt).
Proof.
  intros [w Hw].
  unfold disconnect, _run, _async_disconnect, try_finally, is_connected. unfold_prog.
  rewrite Hw. cbn. rewrite Hw. cbn.
  destruct answer as [[]|[]]; cbn; (split; [done|split; [done|]]).
  all: split; [intros Hin|intros Heq]; try done.
  all: try (by apply list_elem_of_singleton in Hin).
  all: by right; left.
Qed.

Lemma disconnect_clears_handle_witness :
  final (disconnect (Raise OSError) (follower_with (Some (Socket 0)) (obs_ab 0 0 0)))
  = follower_with None (obs_ab 0 0 0) ∧
  value (disconnect (Raise OSError) (follower_with (Some (Socket 0)) (obs_ab 0 0 0)))
  = Raise OSError ∧
  (Print disconnected
   ∈ emitted (disconnect (Raise OSError) (follower_with (Some (Socket 0)) (obs_ab 0 0 0))) ↔
   value (disconnect (Raise OSError) (follower_with (Some (Socket 0)) (obs_ab 0 0 0)))
   = Ok tt).
Proof.
  apply (disconnect_clears_handle (Raise OSError)
           (follower_with (Some (Socket 0)) (obs_ab 0 0 0))).
  by eexists.
Defined.

(** X11.  The life of a connection.  From a follower without a handle, a
    [connect] whose attempt [k] is the first to be accepted stores that
    handle after [k + 1] attempts.  While the handle is held a second
    [connect] raises "already connected" without touching the network;
    [disconnect] then gives back the follower as it was before, and on that
    one [disconnect] raises "is not connected". *)
Theorem connect_disconnect_cycle config net k w answer self :
  _ws self = None →
  (k < 10)%nat →
  (∀ j, (j < k)%nat → ∃ e, net j = Raise e ∧ e ≠ TimeoutError) →
  net k = Ok w →
  let online := final (connect config net self) in
  online = set_ws (Some w) self ∧
  value (connect config net self) = Ok tt ∧
  attempts_made (emitted (connect config net self)) = S k ∧
  (∀ net', connect config net' online =
           Outcome online [] (Raise (RuntimeError "already connected"))) ∧
  final (disconnect answer online) = self ∧
  disconnect answer self = Outcome self [] (Raise (RuntimeError "is not connected")).
Proof.
  intros Hws Hk Hrefused Hnet. cbv zeta.
  destruct (connect_stores_handle config net self k w Hws Hk Hrefused Hnet)
    as (-> & -> & ->).
  split; [done|]. split; [done|]. split; [done|]. split; [|split].
  - intros net'. unfold connect. remember (connect_attempts config net' (seq 0 10)) as loop.
    by unfold_prog.
  - unfold disconnect, _run, _async_disconnect, try_finally, is_connected. unfold_prog.
    cbn. destruct answer as [[]|[]]; cbn; by apply set_ws_back.
  - unfold disconnect, is_connected. unfold_prog. by rewrite Hws.
Qed.

Lemma connect_disconnect_cycle_witness :
  final (connect default_config
           (λ k, if (k <? 2)%nat then Raise OSError else Ok (Socket k))
           (init default_config 0))
  = set_ws (Some (Socket 2)) (init default_config 0) ∧
  value (connect default_config
           (λ k, if (k <? 2)%nat then Raise OSError else Ok (Socket k))
           (init default_config 0)) = Ok tt ∧
  attempts_made
    (emitted (connect default_config
                (λ k, if (k <? 2)%nat then Raise OSError else Ok (Socket k))
                (init default_config 0))) = 3%nat ∧
  (∀ net', connect default_config net'
             (final (connect default_config
                       (λ k, if (k <? 2)%nat then Raise OSError else Ok (Socket k))
                       (init default_config 0)))
           = Outcome (final (connect default_config
                               (λ k, if (k <? 2)%nat then Raise OSError else Ok (Socket k))
                               (init default_config 0)))
                     [] (Raise (RuntimeError "already connected"))) ∧
  final (disconnect (Ok tt)
           (final (connect default_config
                     (λ k, if (k <? 2)%nat then Raise OSError else Ok (Socket k))
                     (init default_config 0))))
  = init default_config 0 ∧
  disconnect (Ok tt) (init default_config 0)
  = Outcome (init default_config 0) [] (Raise (RuntimeError "is not connected")).
Proof.
  apply (connect_disconnect_cycle default_config
           (λ k, if (k <? 2)%nat then Raise OSError else Ok (Socket k))
           2 (Socket 2) (Ok tt) (init default_config 0)).
  - reflexivity.
  - lia.
  - intros j Hj. exists OSError. split; [|done].
    destruct j as [|[|j]]; [reflexivity..|lia].
  - reflexivity.
Defined.

(* ===================================================================== *)

(* ===================================================================== *)
(** * More about send_action *)
(* ===================================================================== *)

(** Bounds that run out before the joints do: the clamp raises at the first
    joint without a bound. *)
Lemma clamp_from_short lo_s hi_s goal_pos last_obs i names acc :
  (i ≤ length lo_s)%nat → (i ≤ length hi_s)%nat →
  (length lo_s < i + length names ∨ length hi_s < i + length names)%nat →
  (∀ jn, jn ∈ names → is_Some (last_obs !! pos_key jn)) →
  clamp_from (Some lo_s) (Some hi_s) goal_pos last_obs i names acc = Raise IndexError.
Proof.
  revert i acc. induction names as [|jn names IH]; intros i acc Hlo Hhi Hshort Hobs.
  - cbn in Hshort. lia.
  - cbn [clamp_from]. unfold mbind, result_bind, index, getitem. cbn.
    destruct (lo_s !! i) as [lo|] eqn:Hi_lo; [|done].
    destruct (hi_s !! i) as [hi|] eqn:Hi_hi; [|done].
    destruct (Hobs jn) as [last ->]; [by left|].
    apply lookup_lt_Some in Hi_lo, Hi_hi.
    apply IH; [lia|lia|cbn in Hshort; lia|].
    intros jn' Hjn'. apply Hobs. by right.
Qed.

Section SendActionMore.
Variable float_of_str : string → option pyfloat.
Variable helper : gmap string (pyfloat * pyfloat) → relative_target
                  → result (gmap string pyfloat).
Variable config : SO101WebSimFollowerConfig.

Local Abbreviation send := (send_action float_of_str helper config).
Local Abbreviation shape := (shaped_target float_of_str helper config).

(** X12.  Without a relative limit and without the absolute clamp
    [send_action] passes the action on as it is.  When [float] accepts
    every value the action has under a key "<joint>.pos", every configured
    joint gets the float of the value the action has under its key, and a
    joint the action leaves out holds its cached position.  When [float]
    raises on one of these values, [send_action] raises that exception
    before it has printed, sent or changed anything. *)
Theorem send_action_passes_goal_through action t_payload t_log answer self :
  max_relative_target config = None →
  truthy (joint_min config) && truthy (joint_max config) = false →
  obs_complete config self →
  (floatable_action float_of_str action →
   ∃ ret,
     value (send_action float_of_str helper config action t_payload t_log answer self)
     = Ok ret ∧
     ∀ jn, jn ∈ joint_names config →
       ret !! pos_key jn = match py_get (pos_key jn) action with
                           | Some v => Some (float_of float_of_str v)
                           | None => _last_obs self !! pos_key jn
                           end) ∧
  (∀ e, extract_goal float_of_str action = Raise e →
        send_action float_of_str helper config action t_payload t_log answer self
        = Outcome self [] (Raise e)).
Proof.
  intros Hfree Hskip Hobs. split.
  - intros Hfloat.
    destruct (goal_from_ok float_of_str action ∅ Hfloat) as [g0 H0].
    assert (shape self action
            = Ok (shaped_value g0 (_last_obs self) <$> joint_names config)) as Hshape.
    { unfold shaped_target, relative_safety, absolute_clamp, extract_goal.
      rewrite H0, Hfree, Hskip. cbn. by apply target_ok. }
    destruct (send_action_returns float_of_str helper config self action t_payload t_log
                answer _ Hshape) as (Hret & _).
    eexists. split; [exact Hret|]. intros jn Hjn.
    rewrite positions_dict_lookup by done. unfold shaped_value.
    rewrite (extract_goal_lookup float_of_str action g0 jn H0).
    destruct (Hobs jn Hjn) as [last ->].
    by destruct (py_get (pos_key jn) action).
  - intros e H0. unfold send_action. rewrite run_bind. unfold lift at 1. by rewrite H0.
Qed.

(** X13.  Bounds for fewer joints than are configured make [send_action]
    raise [IndexError]: both lists are non-empty, so the clamp is active,
    and it fails at the first joint beyond the shorter list.  The exception
    comes before the sequence number is advanced; the follower is left as it
    was and nothing is sent. *)
Theorem send_action_raises_on_short_bounds
    action t_payload t_log answer self lo_s hi_s g0 g1 :
  extract_goal float_of_str action = Ok g0 →
  relative_safety helper config self g0 = Ok g1 →
  joint_min config = Some lo_s →
  joint_max config = Some hi_s →
  lo_s ≠ [] → hi_s ≠ [] →
  (length lo_s < length (joint_names config) ∨
   length hi_s < length (joint_names config))%nat →
  obs_complete config self →
  final (send action t_payload t_log answer self) = self ∧
  value (send action t_payload t_log answer self) = Raise IndexError.
Proof.
  intros H0 H1 Hmin Hmax Hlo Hhi Hshort Hobs.
  apply send_action_raises_early. right. exists g0. split; [done|].
  right. exists g1. split; [done|].
  unfold absolute_clamp. rewrite Hmin, Hmax.
  destruct lo_s as [|lo lo_s]; [done|]. destruct hi_s as [|hi hi_s]; [done|].
  cbn [truthy andb].
  apply clamp_from_short; [lia|lia|done|done].
Qed.

(** X14.  When the shaping steps give a target, [send_action] advances the
    sequence number by one and, if there is a handle, puts exactly one frame
    on the wire: type "cmd", the new sequence number, mode
    "joint_position", the configured joint names and the target it returns.
    Without a handle no frame goes out.  The handle is dropped when the
    transport reports the connection closed, and kept otherwise. *)
Theorem send_action_sends_one_frame action t_payload t_log answer self target :
  shaped_target float_of_str helper config self action = Ok target →
  let o := send action t_payload t_log answer self in
  frames_sent (emitted o) =
    (if is_connected self
     then [Payload "cmd" (S (_seq self)) "joint_position" (joint_names config)
                   target t_payload]
     else []) ∧
  length target = length (joint_names config) ∧
  value o = Ok (positions_dict (joint_names config) target) ∧
  _seq (final o) = S (_seq self) ∧
  _ws (final o) = match answer with
                  | Raise ConnectionClosed => None
                  | _ => _ws self
                  end.
Proof.
  intros Hshape. cbv zeta.
  destruct (send_action_transport float_of_str helper config self action t_payload t_log
              answer target Hshape) as (Hsent & Hws).
  destruct (send_action_returns float_of_str helper config self action t_payload t_log
              answer target Hshape) as (Hret & _ & Hseq).
  destruct (shaped_target_inv float_of_str helper config self action target Hshape)
    as (g0 & g1 & g2 & _ & _ & _ & Htarget & _).
  repeat split; try done. subst target. by rewrite length_fmap.
Qed.

End SendActionMore.

Lemma send_action_passes_goal_through_witness :
  (∃ ret,
     value (send_action no_numeral ensure_safe_goal_position_spec config_ab
              [("a.pos", JInt 5); ("speed", JNull)]
              10 10 (Ok tt) (follower_with None (obs_ab 1 2 0))) = Ok ret ∧
     ∀ jn, jn ∈ ["a"; "b"] →
       ret !! pos_key jn
       = match py_get (pos_key jn) [("a.pos", JInt 5); ("speed", JNull)] with
         | Some v => Some (float_of no_numeral v)
         | None => obs_ab 1 2 0 !! pos_key jn
         end) ∧
  (∀ e, extract_goal no_numeral [("a.pos", JNull)] = Raise e →
        send_action no_numeral ensure_safe_goal_position_spec config_ab
          [("a.pos", JNull)] 10 10 (Ok tt) (follower_with None (obs_ab 1 2 0))
        = Outcome (follower_with None (obs_ab 1 2 0)) [] (Raise e)).
Proof.
  assert (obs_complete config_ab (follower_with None (obs_ab 1 2 0))) as Hobs.
  { intros jn [->|[->|Hjn]%elem_of_cons]%elem_of_cons;
      [by eexists..|by inversion Hjn]. }
  split.
  - apply (send_action_passes_goal_through no_numeral ensure_safe_goal_position_spec
             config_ab [("a.pos", JInt 5); ("speed", JNull)] 10 10 (Ok tt)
             (follower_with None (obs_ab 1 2 0))); [reflexivity|reflexivity|exact Hobs|].
    intros k v [[= -> ->]|[[= -> ->]|Hin]%elem_of_cons]%elem_of_cons Hk.
    + by eexists.
    + by vm_compute in Hk.
    + by inversion Hin.
  - apply (send_action_passes_goal_through no_numeral ensure_safe_goal_position_spec
             config_ab [("a.pos", JNull)] 10 10 (Ok tt)
             (follower_with None (obs_ab 1 2 0))); [reflexivity|reflexivity|exact Hobs].
Defined.

Lemma send_action_raises_on_short_bounds_witness :
  final (send_action no_numeral ensure_safe_goal_position_spec config_ab_short_bounds
           [("a.pos", JInt 5)] 10 10 (Ok tt)
           (follower_with (Some (Socket 0)) (obs_ab 0 0 0)))
  = follower_with (Some (Socket 0)) (obs_ab 0 0 0) ∧
  value (send_action no_numeral ensure_safe_goal_position_spec config_ab_short_bounds
           [("a.pos", JInt 5)] 10 10 (Ok tt)
           (follower_with (Some (Socket 0)) (obs_ab 0 0 0)))
  = Raise IndexError.
Proof.
  apply (send_action_raises_on_short_bounds no_numeral ensure_safe_goal_position_spec
           config_ab_short_bounds [("a.pos", JInt 5)] 10 10 (Ok tt)
           (follower_with (Some (Socket 0)) (obs_ab 0 0 0)) [Finite 0] [Finite 1]
           {[ "a" := Finite 5 ]} {[ "a" := Finite 5 ]}).
  - by vm_compute.
  - reflexivity.
  - reflexivity.
  - reflexivity.
  - done.
  - done.
  - left. cbn. lia.
  - intros jn [->|[->|Hjn]%elem_of_cons]%elem_of_cons;
      [by eexists..|by inversion Hjn].
Defined.

Lemma send_action_sends_one_frame_witness :
  frames_sent (emitted (send_action no_numeral ensure_safe_goal_position_spec config_ab
                          [("a.pos", JInt 5)] 10 11 (Raise ConnectionClosed)
                          (follower_with (Some (Socket 0)) (obs_ab 1 2 0))))
  = [Payload "cmd" 8 "joint_position" ["a"; "b"] [Finite 5; Finite 2] 10] ∧
  _ws (final (send_action no_numeral ensure_safe_goal_position_spec config_ab
                [("a.pos", JInt 5)] 10 11 (Raise ConnectionClosed)
                (follower_with (Some (Socket 0)) (obs_ab 1 2 0)))) = None.
Proof.
  destruct (send_action_sends_one_frame no_numeral ensure_safe_goal_position_spec
              config_ab [("a.pos", JInt 5)] 10 11 (Raise ConnectionClosed)
              (follower_with (Some (Socket 0)) (obs_ab 1 2 0)) [Finite 5; Finite 2])
    as (Hsent & _ & _ & _ & Hws).
  - by vm_compute.
  - split; [exact Hsent|exact Hws].
Defined.

(* ===================================================================== *)
(** * More about get_observation *)
(* ===================================================================== *)

Section GetObservationMore.
Variable float_of_str : string → option pyfloat.
Variable str_of_scalar : json → string.
Variable config : SO101WebSimFollowerConfig.

Local Abbreviation observe := (get_observation float_of_str str_of_scalar config).

(** X15.  [get_observation] reads nothing.  Its receive is wrapped in a
    wait of zero seconds (line 67), which ends before [_async_try_recv]
    takes a step: whatever the transport holds - a frame, nothing, a closed
    connection, an error - no [recv] is made, the follower is left as it
    was, handle included, and the cache comes back as it is.  The wait of
    zero seconds inside [_async_try_recv] (line 175) would by itself do the
    same to [recv]. *)
Theorem get_observation_reads_nothing answer now self :
  get_observation float_of_str str_of_scalar config answer now self
  = Outcome self [Await (Some 0%Q)] (Ok (_last_obs self)) ∧
  _async_try_recv answer self = Outcome self [] (Ok None).
Proof.
  split; [done|].
  unfold _async_try_recv, is_connected. unfold_prog. by destruct (_ws self).
Qed.

(** X16.  A frame that is no state frame changes nothing: a text that is no
    JSON, a JSON value that is no object (the [AttributeError] of [data.get]
    is swallowed) and an object whose type is not "state" leave the follower
    as it was, and [get_observation] returns the cache. *)
Theorem get_observation_ignores_frame msg now self :
  ignored_frame msg →
  final (get_observation float_of_str str_of_scalar config (Ok msg) now self) = self ∧
  value (get_observation float_of_str str_of_scalar config (Ok msg) now self)
  = Ok (_last_obs self).
Proof. intros _. by rewrite get_observation_run. Qed.

End GetObservationMore.

Lemma get_observation_ignores_frame_witness :
  final (get_observation no_numeral no_scalar_name config_ab
           (Ok (Decodes (JArr (floats [1; 2]%Q)))) 50
           (follower_with (Some (Socket 0)) (obs_ab 1 2 0)))
  = follower_with (Some (Socket 0)) (obs_ab 1 2 0) ∧
  value (get_observation no_numeral no_scalar_name config_ab
           (Ok (Decodes (JArr (floats [1; 2]%Q)))) 50
           (follower_with (Some (Socket 0)) (obs_ab 1 2 0)))
  = Ok (obs_ab 1 2 0).
Proof.
  apply (get_observation_ignores_frame no_numeral no_scalar_name config_ab
           (Decodes (JArr (floats [1; 2]%Q))) 50
           (follower_with (Some (Socket 0)) (obs_ab 1 2 0))).
  exact I.
Defined.

(* ===================================================================== *)
(** * The follower and the endpoint together *)
(* ===================================================================== *)

Lemma format_f_JFloat (xs : list pyfloat) : map_result format_f (JFloat <$> xs) = Ok xs.
Proof.
  induction xs as [|x xs IH]; [done|]. cbn. unfold mbind, result_bind.
  by rewrite IH.
Qed.

(** The endpoint applies a command frame of the follower that carries as
    many values as the endpoint has joints. *)
Lemma rx_body_cmd_message names target seq t (q : list json) :
  length target = length JOINT_NAMES →
  rx_body (Decodes (cmd_message (Payload "cmd" seq "joint_position" names target t))) q
  = Outcome (JFloat <$> target) [got_cmd target] (Ok tt).
Proof.
  intros Hlen. apply rx_body_valid_numbers; [|apply format_f_JFloat].
  repeat split. by rewrite length_fmap.
Qed.

(** It rejects one of any other length. *)
Lemma rx_body_cmd_message_rejected names target seq t (q : list json) :
  length target ≠ length JOINT_NAMES →
  rx_body (Decodes (cmd_message (Payload "cmd" seq "joint_position" names target t))) q
  = Outcome q [bad_target_len (length target)] (Ok tt).
Proof.
  intros Hlen. unfold rx_body. cbn. unfold_prog. cbn. rewrite length_fmap.
  destruct (Nat.eqb_spec (length target) 6) as [Heq|_]; [done|]. done.
Qed.

Section Together.
Variable float_of_str : string → option pyfloat.
Variable str_of_scalar : json → string.
Variable helper : gmap string (pyfloat * pyfloat) → relative_target
                  → result (gmap string pyfloat).
Variable config : SO101WebSimFollowerConfig.

Local Abbreviation observe := (get_observation float_of_str str_of_scalar config).
Local Abbreviation send := (send_action float_of_str helper config).
Local Abbreviation shape := (shaped_target float_of_str helper config).

(** X18.  What [send_action] returns is what the next [get_observation]
    reads, whatever the transport holds by then: for every configured joint
    the observation has the position just commanded, under the time of the
    command. *)
Theorem get_observation_after_send_reads_target
    action t_payload t_log answer pending now self ret :
  value (send_action float_of_str helper config action t_payload t_log answer self)
  = Ok ret →
  ∃ obs,
    value (get_observation float_of_str str_of_scalar config pending now
             (final (send_action float_of_str helper config
                       action t_payload t_log answer self))) = Ok obs ∧
    (∀ jn, jn ∈ joint_names config →
       is_Some (ret !! pos_key jn) ∧ obs !! pos_key jn = ret !! pos_key jn) ∧
    obs !! "timestamp" = Some (Finite t_payload).
Proof.
  intros (target & Hshape & ->)%send_action_returns_inv.
  destruct (send_action_returns float_of_str helper config self action t_payload t_log
              answer target Hshape) as (_ & Hobs & _).
  destruct (shaped_target_inv float_of_str helper config self action target Hshape)
    as (g0 & g1 & g2 & _ & _ & _ & -> & _).
  eexists. split; [by rewrite get_observation_run|]. rewrite Hobs. split.
  - intros jn Hjn. rewrite after_send_lookup, positions_dict_lookup by done.
    by split; [eexists|].
  - unfold after_send. by rewrite lookup_insert_eq.
Qed.

(** X20.  The command frame of a follower that is configured with as many
    joints as the endpoint has is applied by the endpoint: [send_action]
    puts one frame on the wire, and [rx_loop]'s body, given that frame,
    replaces [q] by the target that [send_action] returns, whatever the
    joints are called. *)
Theorem rx_body_applies_sent_frame action t_payload t_log answer self target (q : list json) :
  shaped_target float_of_str helper config self action = Ok target →
  is_Some (_ws self) →
  length (joint_names config) = length JOINT_NAMES →
  ∃ p,
    frames_sent (emitted (send action t_payload t_log answer self)) = [p] ∧
    value (send action t_payload t_log answer self)
    = Ok (positions_dict (joint_names config) target) ∧
    rx_body (Decodes (cmd_message p)) q
    = Outcome (JFloat <$> target) [got_cmd target] (Ok tt).
Proof.
  intros Hshape [w Hw] Hlen.
  destruct (send_action_transport float_of_str helper config self action t_payload t_log
              answer target Hshape) as (Hsent & _).
  destruct (send_action_returns float_of_str helper config self action t_payload t_log
              answer target Hshape) as (Hret & _).
  destruct (shaped_target_inv float_of_str helper config self action target Hshape)
    as (g0 & g1 & g2 & _ & _ & _ & Htarget & _).
  unfold is_connected in Hsent. rewrite Hw in Hsent.
  eexists. split; [exact Hsent|]. split; [exact Hret|].
  apply rx_body_cmd_message. subst target. by rewrite length_fmap.
Qed.

(** X21.  The frames of a follower that is configured with more or fewer
    joints than the endpoint has are all rejected: the endpoint prints
    "bad target len" with the number of configured joints and keeps [q]. *)
Theorem rx_body_rejects_other_joint_count action t_payload t_log answer self target
    (q : list json) :
  shaped_target float_of_str helper config self action = Ok target →
  is_Some (_ws self) →
  length (joint_names config) ≠ length JOINT_NAMES →
  ∃ p,
    frames_sent (emitted (send action t_payload t_log answer self)) = [p] ∧
    rx_body (Decodes (cmd_message p)) q
    = Outcome q [bad_target_len (length (joint_names config))] (Ok tt).
Proof.
  intros Hshape [w Hw] Hlen.
  destruct (send_action_transport float_of_str helper config self action t_payload t_log
              answer target Hshape) as (Hsent & _).
  destruct (shaped_target_inv float_of_str helper config self action target Hshape)
    as (g0 & g1 & g2 & _ & _ & _ & Htarget & _).
  unfold is_connected in Hsent. rewrite Hw in Hsent.
  eexists. split; [exact Hsent|].
  assert (length target = length (joint_names config)) as Htl
    by (subst target; by rewrite length_fmap).
  rewrite <- Htl. apply rx_body_cmd_message_rejected. by rewrite Htl.
Qed.

End Together.

Lemma get_observation_after_send_reads_target_witness :
  ∃ obs,
    value (get_observation no_numeral no_scalar_name config_ab
             (Ok (Decodes (JObj frame_positions))) 50
             (final (send_action no_numeral ensure_safe_goal_position_spec config_ab
                       [("a.pos", JInt 5)] 10 11 (Ok tt)
                       (follower_with (Some (Socket 0)) (obs_ab 1 2 0))))) = Ok obs ∧
    (∀ jn, jn ∈ ["a"; "b"] →
       is_Some (positions_dict ["a"; "b"] [Finite 5; Finite 2] !! pos_key jn) ∧
       obs !! pos_key jn = positions_dict ["a"; "b"] [Finite 5; Finite 2] !! pos_key jn) ∧
    obs !! "timestamp" = Some (Finite 10).
Proof.
  apply (get_observation_after_send_reads_target no_numeral no_scalar_name
           ensure_safe_goal_position_spec config_ab [("a.pos", JInt 5)] 10 11 (Ok tt)
           (Ok (Decodes (JObj frame_positions))) 50
           (follower_with (Some (Socket 0)) (obs_ab 1 2 0))
           (positions_dict ["a"; "b"] [Finite 5; Finite 2])).
  by vm_compute.
Defined.

Lemma rx_body_applies_sent_frame_witness :
  ∃ p,
    frames_sent (emitted (send_action no_numeral ensure_safe_goal_position_spec
                            default_config [("gripper.pos", JInt 1)] 10 11 (Ok tt)
                            online_follower)) = [p] ∧
    value (send_action no_numeral ensure_safe_goal_position_spec default_config
             [("gripper.pos", JInt 1)] 10 11 (Ok tt) online_follower)
    = Ok (positions_dict default_joint_names (Finite <$> [0; 0; 0; 0; 0; 1]%Q)) ∧
    rx_body (Decodes (cmd_message p)) q_init
    = Outcome (JFloat <$> (Finite <$> [0; 0; 0; 0; 0; 1]%Q))
              [got_cmd (Finite <$> [0; 0; 0; 0; 0; 1]%Q)] (Ok tt).
Proof.
  apply (rx_body_applies_sent_frame no_numeral ensure_safe_goal_position_spec
           default_config [("gripper.pos", JInt 1)] 10 11 (Ok tt) online_follower
           (Finite <$> [0; 0; 0; 0; 0; 1]%Q) q_init).
  - by vm_compute.
  - by eexists.
  - reflexivity.
Defined.

Lemma rx_body_rejects_other_joint_count_witness :
  ∃ p,
    frames_sent (emitted (send_action no_numeral ensure_safe_goal_position_spec config_ab
                            [("a.pos", JInt 5)] 10 11 (Ok tt)
                            (follower_with (Some (Socket 0)) (obs_ab 1 2 0)))) = [p] ∧
    rx_body (Decodes (cmd_message p)) q_init
    = Outcome q_init [bad_target_len 2] (Ok tt).
Proof.
  apply (rx_body_rejects_other_joint_count no_numeral ensure_safe_goal_position_spec
           config_ab [("a.pos", JInt 5)] 10 11 (Ok tt)
           (follower_with (Some (Socket 0)) (obs_ab 1 2 0)) [Finite 5; Finite 2] q_init).
  - by vm_compute.
  - by eexists.
  - cbn. lia.
Defined.

(* ===================================================================== *)
(** * What a well-formed configuration guarantees *)
(* ===================================================================== *)

Lemma goal_present_from_dom goal_pos present names acc gp :
  goal_present_from goal_pos present names acc = Ok gp →
  dom gp = list_to_set names ∪ dom acc.
Proof.
  revert acc. induction names as [|jn names IH]; intros acc; cbn.
  - intros [= <-]. by rewrite union_empty_l_L.
  - unfold mbind, result_bind, getitem. destruct (present !! jn) as [p|]; [|done].
    intros ->%IH. rewrite dom_insert_L, !(assoc_L (∪)). f_equal. apply (comm_L (∪)).
Qed.

Section WellConfigured.
Variable float_of_str : string → option pyfloat.
Variable str_of_scalar : json → string.
Variable helper : gmap string (pyfloat * pyfloat) → relative_target
                  → result (gmap string pyfloat).
Variable config : SO101WebSimFollowerConfig.

Local Abbreviation observe := (get_observation float_of_str str_of_scalar config).
Local Abbreviation send := (send_action float_of_str helper config).
Local Abbreviation shape := (shaped_target float_of_str helper config).

(** X23.  [send_action] does not raise on a well-formed follower and a
    well-formed action: when [float] accepts every value the action has
    under a key "<joint>.pos", every configured joint is cached, the bounds
    (if the clamp is active) cover every joint, and the imported
    [ensure_safe_goal_position] returns when it is given the configured
    limit and a dict whose keys are the configured joints,  [send_action]
    returns for every answer of the transport, and every configured joint
    is still cached afterwards. *)
Theorem send_action_returns_when_well_configured action t_payload t_log answer self :
  floatable_action float_of_str action →
  obs_complete config self →
  bounds_cover config →
  (∀ limit goal_present,
     max_relative_target config = Some limit →
     dom goal_present = list_to_set (joint_names config) →
     ∃ goal_pos, helper goal_present limit = Ok goal_pos) →
  ∃ ret,
    value (send action t_payload t_log answer self) = Ok ret ∧
    obs_complete config (final (send action t_payload t_log answer self)).
Proof.
  intros Hfloat Hobs Hcover Hhelper.
  assert (∃ target, shape self action = Ok target) as [target Hshape].
  { unfold shaped_target, extract_goal, mbind, result_bind.
    destruct (goal_from_ok float_of_str action ∅ Hfloat) as [g0 ->].
    assert (∃ g1, relative_safety helper config self g0 = Ok g1) as [g1 ->].
    { unfold relative_safety. destruct (max_relative_target config) as [limit|] eqn:Hlimit;
        [|by eexists].
      destruct (goal_present_from_ok g0 (pos_entries (_last_obs self))
                  (joint_names config) ∅) as [gp Hgp].
      { intros jn Hjn. rewrite pos_entries_lookup. by apply Hobs. }
      rewrite Hgp. cbn. apply Hhelper; [done|].
      by rewrite (goal_present_from_dom _ _ _ _ _ Hgp), dom_empty_L, union_empty_r_L. }
    assert (∃ g2, absolute_clamp config self g1 = Ok g2) as [g2 ->].
    { unfold absolute_clamp.
      destruct (truthy (joint_min config) && truthy (joint_max config)) eqn:Hactive;
        [|by eexists].
      apply clamp_from_ok. intros j jn Hj.
      destruct (Hcover Hactive j jn Hj) as [Hlo Hhi]. repeat split; try done.
      apply Hobs. by eapply list_elem_of_lookup_2. }
    rewrite target_ok by done. by eexists. }
  destruct (send_action_returns float_of_str helper config self action t_payload t_log
              answer target Hshape) as (Hret & _).
  eexists. split; [exact Hret|]. by eapply send_action_keeps_complete.
Qed.

Lemma connect_attempts_cache net attempts self :
  _last_obs (final (connect_attempts config net attempts self)) = _last_obs self.
Proof.
  induction attempts as [|attempt attempts IH]; [done|].
  destruct (net attempt) as [w|e] eqn:Hnet.
  - by rewrite (attempt_succeeds config net self attempt attempts w Hnet).
  - assert (e = TimeoutError ∨ e ≠ TimeoutError) as [->|He]
      by (destruct e; (by left) || (by right)).
    + by rewrite (attempt_times_out config net self attempt attempts Hnet).
    + by rewrite (attempt_fails config net self attempt attempts e Hnet He).
Qed.

Lemma connect_cache net self :
  _last_obs (final (connect config net self)) = _last_obs self.
Proof.
  pose proof (connect_attempts_cache net (seq 0 10) self) as Hloop.
  unfold connect. remember (connect_attempts config net (seq 0 10)) as loop.
  unfold is_connected. unfold_prog. cbn.
  destruct (_ws self); cbn; [done|].
  destruct (loop self) as [s1 out1 [[]|e]]; cbn in *; [|done].
  by destruct (_ws s1).
Qed.

Lemma disconnect_cache answer self :
  _last_obs (final (disconnect answer self)) = _last_obs self.
Proof.
  unfold disconnect, _run, _async_disconnect, try_finally, is_connected. unfold_prog.
  destruct (_ws self) eqn:Hws; cbn; [|done]. rewrite Hws. cbn.
  by destruct answer as [[]|[]].
Qed.

Local Abbreviation session := (session float_of_str str_of_scalar helper config).
Local Abbreviation after_call := (after_call float_of_str str_of_scalar helper config).

Lemma after_call_dom self c :
  dom (_last_obs self) = dom (observation_features config) →
  dom (_last_obs (after_call self c)) = dom (observation_features config).
Proof.
  intros Hdom. destruct c as [net|answer|answer now|action t_payload t_log answer]; cbn.
  - by rewrite connect_cache.
  - by rewrite disconnect_cache.
  - by rewrite get_observation_run.
  - destruct (shape self action) as [target|e] eqn:Hshape.
    + destruct (send_action_returns float_of_str helper config self action t_payload
                  t_log answer target Hshape) as (_ & -> & _).
      destruct (shaped_target_inv float_of_str helper config self action target Hshape)
        as (g0 & g1 & g2 & _ & _ & _ & -> & _).
      rewrite dom_after_send, Hdom. apply union_idemp_L.
    + by destruct (send_action_raises_untouched float_of_str helper config self action
                     t_payload t_log answer e Hshape) as (_ & -> & _).
Qed.

(** X25.  The cache has the keys of [observation_features] throughout the
    life of a follower: after [__init__] and any sequence of calls of
    [connect], [disconnect], [get_observation] and [send_action], whatever
    they are given, whatever the transport does and whether they return or
    raise.  So every observation handed out has exactly the declared
    keys. *)
Theorem session_keeps_observation_features now calls :
  dom (_last_obs (session now calls)) = dom (observation_features config) ∧
  ∀ answer t obs,
    value (get_observation float_of_str str_of_scalar config answer t (session now calls))
    = Ok obs →
    dom obs = dom (observation_features config).
Proof.
  assert (∀ self, dom (_last_obs self) = dom (observation_features config) →
            dom (_last_obs (foldl after_call self calls)) = dom (observation_features config))
    as Hfold.
  { induction calls as [|c calls IH]; intros self Hdom; [done|].
    cbn [foldl]. by apply IH, after_call_dom. }
  assert (dom (_last_obs (session now calls)) = dom (observation_features config)) as Hdom.
  { apply Hfold, dom_init. }
  split; [done|]. intros answer t obs. rewrite get_observation_run. by intros [= <-].
Qed.

End WellConfigured.

Lemma send_action_returns_when_well_configured_witness :
  ∃ ret,
    value (send_action no_numeral ensure_safe_goal_position_spec config_a_range_relative
             [("a.pos", JInt 5)] 10 11 (Raise OSError)
             (follower_with (Some (Socket 0)) (obs_a 1 0))) = Ok ret ∧
    obs_complete config_a_range_relative
      (final (send_action no_numeral ensure_safe_goal_position_spec
                config_a_range_relative [("a.pos", JInt 5)] 10 11 (Raise OSError)
                (follower_with (Some (Socket 0)) (obs_a 1 0)))).
Proof.
  apply (send_action_returns_when_well_configured no_numeral
           ensure_safe_goal_position_spec config_a_range_relative
           [("a.pos", JInt 5)] 10 11 (Raise OSError)
           (follower_with (Some (Socket 0)) (obs_a 1 0))).
  - intros k v [[= -> ->]|Hin]%elem_of_cons Hk; [by eexists|by inversion Hin].
  - intros jn Hjn%list_elem_of_singleton. subst jn. by eexists.
  - intros _ [|j] jn Hj; [|done]. split; by eexists.
  - intros limit goal_present _ _. by eexists.
Defined.
